(** * cnexp.redo: dispatching redo targets to slurm

    A shallow embedding of [src/cnexp/redo.py] and the properties of its
    dispatch-and-wait logic.

    Conventions of the embedding.
    - A Python [str] is a [string]; its characters are code points below
      256, so that the regular-expression class [\d] is exactly ['0'..'9'].
    - A target is given by the string of its [Path]: on such a string
      [Path(dep)] is the identity and [str(dep)] is the string itself.  The
      dispatcher is modelled on a list of targets (a lone [str] or [Path]
      is wrapped into a one-element list by [redo] and by the mlcloud
      branch).
    - The outside world (environment variables, the file system, the
      programs started through [subprocess]) is a value of type [World];
      what the program does to it is recorded, in order, in a trace of
      [event]s.  A program that was started always hands back a
      [completed] process; failures of the operating system to start one
      or to create a directory are not part of the model.
    - The polling loop has no bound in the source; its model takes fuel and
      answers [OutOfFuel] when the fuel does not suffice. *)

From Stdlib Require Import String Ascii List ZArith Lia Bool Arith DecimalString Permutation.
From Stdlib Require DecimalFacts DecimalNat.
Import ListNotations.
Local Open Scope string_scope.
Local Open Scope list_scope.

(** ** Python values used by the program *)

Module Py.

Definition nl : string := String "010"%char EmptyString.

(** [x in l] on a list of strings. *)
Definition str_in (x : string) (l : list string) : bool :=
  existsb (String.eqb x) l.

(** [s.split(sep)] for a separator of one character: one piece more than
    there are separators, empty pieces kept. *)
Fixpoint split (sep : ascii) (s : string) : list string :=
  match s with
  | EmptyString => [EmptyString]
  | String c rest =>
      if Ascii.eqb c sep then EmptyString :: split sep rest
      else match split sep rest with
           | [] => [String c EmptyString]
           | piece :: pieces => String c piece :: pieces
           end
  end.

(** [sep.join(l)]. *)
Definition join (sep : string) (l : list string) : string :=
  String.concat sep l.

(** [str(n)] for an [int]. *)
Definition str_of_int (n : Z) : string :=
  NilZero.string_of_int (Z.to_int n).

(** The format [{i:02d}] for [i] in [range(...)]: decimal, padded with
    zeros on the left to two characters. *)
Definition fmt_02d (i : nat) : string :=
  let s := NilZero.string_of_uint (Nat.to_uint i) in
  if (String.length s <? 2)%nat then "0" ++ s else s.

(** [[x] * n]. *)
Definition replicate {A : Type} (x : A) (n : nat) : list A := repeat x n.

(** An argument that the program tests with [isinstance(_, list)]. *)
Inductive arg (A : Type) : Type :=
| Scalar (a : A)
| PyList (l : list A).
Arguments Scalar {A} a.
Arguments PyList {A} l.

(** The exceptions the program can end with. *)
Inductive exn : Type :=
| ValueError (user : option string)
| AssertionError
| TypeError
| RuntimeError (returncode : Z) (stderr : string)
| CalledProcessError (returncode : Z).

End Py.
Import Py.

(** ** Regular expression of the acknowledgement *)

Module Re.

Definition is_digit (c : ascii) : bool :=
  let n := nat_of_ascii c in ((48 <=? n) && (n <=? 57))%nat.

(** The longest run of digits at the start of [s] (a greedy [\d*]). *)
Fixpoint digits (s : string) : string :=
  match s with
  | EmptyString => EmptyString
  | String c rest => if is_digit c then String c (digits rest) else EmptyString
  end.

(** The rest of [s] after the literal [lit], when [s] starts with it. *)
Fixpoint literal (lit s : string) : option string :=
  match lit, s with
  | EmptyString, _ => Some s
  | String _ _, EmptyString => None
  | String a lit', String b s' =>
      if Ascii.eqb a b then literal lit' s' else None
  end.

(** [re.match(r"Submitted batch job (\d+)", s)]: [None] when there is no
    match at the start of [s], else group 1. *)
Definition match_submitted (s : string) : option string :=
  match literal "Submitted batch job " s with
  | None => None
  | Some rest =>
      match digits rest with
      | EmptyString => None
      | String c ds => Some (String c ds)
      end
  end.

End Re.

(** ** The world and the trace *)

(** What is handed to [subprocess]: the argument vector, the text fed to
    standard input ([input=]) and the environment ([env=], [None] when the
    caller's is inherited). *)
Record command : Type := Command {
  argv : list string;
  input : option string;
  cmd_env : option (list (string * string))
}.

(** A finished process. *)
Record completed : Type := Completed {
  returncode : Z;
  stdout : string;
  stderr : string
}.

Inductive event : Type :=
| Spawn (c : command)          (* subprocess.call / run / check_output *)
| MkParent (dep : string)      (* Path(dep).parent.mkdir(parents=True, exist_ok=True) *)
| Sleep.                       (* time.sleep(0.5) *)

Definition trace : Type := list event.

Record World : Type := {
  (** [os.environ] *)
  environ : list (string * string);
  (** [resolves_under workdir dep] is
      [Path(dep).resolve().is_relative_to(Path(workdir))]; it reads the file
      system (symbolic links, the current directory). *)
  resolves_under : string -> string -> bool;
  (** The process that answers a command, given all that happened before. *)
  run_proc : trace -> command -> completed
}.

(** [os.getenv(key)] *)
Fixpoint lookup (key : string) (env : list (string * string)) : option string :=
  match env with
  | [] => None
  | (k, v) :: env' => if String.eqb k key then Some v else lookup key env'
  end.

Definition getenv (w : World) (key : string) : option string :=
  lookup key (environ w).

(** [env.pop(key, None)] on a copy of the environment. *)
Definition env_pop (key : string) (env : list (string * string)) : list (string * string) :=
  filter (fun kv => negb (String.eqb (fst kv) key)) env.

(** ** Computations: a trace, and a value or an exception *)

Inductive result (A : Type) : Type :=
| Ok (a : A)
| Raise (e : exn)
| OutOfFuel.
Arguments Ok {A} a.
Arguments Raise {A} e.
Arguments OutOfFuel {A}.

Definition M (A : Type) : Type := trace -> result A * trace.

Definition ret {A : Type} (a : A) : M A := fun tr => (Ok a, tr).

Definition bind {A B : Type} (m : M A) (k : A -> M B) : M B :=
  fun tr =>
    match m tr with
    | (Ok a, tr') => k a tr'
    | (Raise e, tr') => (Raise e, tr')
    | (OutOfFuel, tr') => (OutOfFuel, tr')
    end.

Definition raise {A : Type} (e : exn) : M A := fun tr => (Raise e, tr).

Definition out_of_fuel {A : Type} : M A := fun tr => (OutOfFuel, tr).

Definition emit (ev : event) : M unit := fun tr => (Ok tt, tr ++ [ev]).

Declare Scope prog_scope.
Delimit Scope prog_scope with prog.
Notation "x <- m ;; k" := (bind m (fun x => k))
  (at level 61, m at next level, right associativity) : prog_scope.
Notation "m ;; k" := (bind m (fun _ => k))
  (at level 61, right associativity) : prog_scope.
Local Open Scope prog_scope.

(** Starting a process: the command enters the trace, the world answers
    from the trace before it. *)
Definition spawn (w : World) (c : command) : M completed :=
  fun tr => (Ok (run_proc w tr c), tr ++ [Spawn c]).

(** [subprocess.call(args, close_fds=False)] *)
Definition subprocess_call (w : World) (args : list string) : M Z :=
  p <- spawn w (Command args None None) ;; ret (returncode p).

(** [subprocess.check_output(args)]: the output, or [CalledProcessError]
    on a non-zero exit. *)
Definition subprocess_check_output (w : World) (args : list string) : M string :=
  p <- spawn w (Command args None None) ;;
  if (returncode p =? 0)%Z then ret (stdout p)
  else raise (CalledProcessError (returncode p)).

(** ** The program, function by function *)

(** [_is_gpu_partition(p)]: [p in [...]]; the candidate
    ["gpu-2080ti-interactive"] is commented out in the source. *)
Definition gpu_partitions : list string :=
  [ "gpu-2080ti";
    "gpu-2080ti-dev";
    "gpu-2080ti-preemptable";
    "gpu-v100";
    "gpu-v100-preemptable" ].

Definition _is_gpu_partition (p : option string) : bool :=
  match p with
  | None => false
  | Some s => str_in s gpu_partitions
  end.

(** [redo(deplist, exe)]: a lone target is wrapped into a list; the value is
    the exit status of the build tool. *)
Definition redo (w : World) (deplist : arg string) (exe : string) : M Z :=
  let deplist :=
    match deplist with
    | Scalar dep => [dep]
    | PyList l => l
    end in
  subprocess_call w ([exe] ++ deplist).

Definition redo_ifchange (w : World) (deplist : arg string) : M Z :=
  redo w deplist "redo-ifchange".

(** The command of [_redo_ood_list(deplist)]. *)
Definition ood_command (deplist : list string) : command :=
  Command (["redo-ood"] ++ deplist) None None.

Definition _redo_ood_list (w : World) (deplist : list string) : M (list bool) :=
  ood_proc <- spawn w (ood_command deplist) ;;
  if (returncode ood_proc =? 0)%Z then
    let ood_list := split "010"%char (stdout ood_proc) in
    ret (map (fun dep => str_in dep ood_list) deplist)
  else
    ret (map (fun _ => true) deplist).

(** [[l for l, b in zip(list_maybe, bools) if b]] *)
Definition filter_by {A : Type} (l : list A) (bools : list bool) : list A :=
  map fst (filter snd (combine l bools)).

(** [_redo_filter_list(list_maybe, bools)] *)
Definition _redo_filter_list {A : Type} (list_maybe : arg A) (bools : list bool) : arg A :=
  match list_maybe with
  | Scalar a => Scalar a
  | PyList l => PyList (filter_by l bools)
  end.

(** *** [_slurm_launch_and_wait] *)

(** One turn of the loop over
    [zip(names, deplist, partition, n_cpus, mem, time_str)]. *)
Record job : Type := Job {
  j_name : string;
  j_dep : string;
  j_part : option string;
  j_cpus : option Z;
  j_mem : option string;
  j_time : option string
}.

Definition zip6 (names deplist : list string) (partition : list (option string))
    (n_cpus : list (option Z)) (mem time_str : list (option string)) : list job :=
  map (fun '(name, (dep, (part, (n_cpu, (m, t))))) => Job name dep part n_cpu m t)
      (combine names (combine deplist (combine partition
         (combine n_cpus (combine mem time_str))))).

(** [x if isinstance(x, list) else [x] * n] *)
Definition as_list {A : Type} (x : arg A) (n : nat) : list A :=
  match x with
  | Scalar a => replicate a n
  | PyList l => l
  end.

(** The three cases of [names]: [None], a list, anything else. *)
Definition job_names (names : option (arg string)) (n : nat) : list string :=
  match names with
  | None => map (fun i => ("redo" ++ fmt_02d i)%string) (seq 0 n)
  | Some (Scalar name) => replicate name n
  | Some (PyList l) => l
  end.

(** The jobs of a call, after every argument has been made a list. *)
Definition slurm_jobs (deplist : list string) (partition : arg (option string))
    (n_cpus : arg (option Z)) (mem time_str : arg (option string))
    (names : option (arg string)) : list job :=
  let n := length deplist in
  zip6 (job_names names n) deplist (as_list partition n) (as_list n_cpus n)
       (as_list mem n) (as_list time_str n).

Definition sbatch_args (part : option string) (n_cpu : option Z)
    (m t : option string) : list string :=
  let args := [] in
  let args := match part with Some p => args ++ ["--partition"; p] | None => args end in
  let args := match n_cpu with
              | Some n => args ++ ["--cpus-per-task"; str_of_int n]
              | None => args
              end in
  let args := match m with Some m' => args ++ ["--mem"; m'] | None => args end in
  let args := match t with Some t' => args ++ ["--time"; t'] | None => args end in
  if _is_gpu_partition part then args ++ ["--gres=gpu:1"] else args.

(** The argument vector of one submission. *)
Definition sbatch_argv (j : job) : list string :=
  ["sbatch"] ++ sbatch_args (j_part j) (j_cpus j) (j_mem j) (j_time j)
    ++ ["--job-name"; j_name j].

(** [os.environ.copy()] without the four variables of the redo session. *)
Definition job_env (w : World) : list (string * string) :=
  env_pop "REDO_DEP_FD" (env_pop "REDO_STATUS_FD"
    (env_pop "MAKEFLAGS" (env_pop "REDO_JS_FD" (environ w)))).

Definition job_script (dep : string) : string :=
  ("#!/bin/sh" ++ nl ++ "redo-ifchange '" ++ dep ++ "'" ++ nl)%string.

Definition sbatch_command (w : World) (j : job) : command :=
  Command (sbatch_argv j) (Some (job_script (j_dep j))) (Some (job_env w)).

(** The body of the launching loop; its value is [slurm_job_id].  Group 1
    of a failed [re.match] is [None[1]], a [TypeError]. *)
Definition submit (w : World) (j : job) : M string :=
  emit (MkParent (j_dep j)) ;;
  proc <- spawn w (sbatch_command w j) ;;
  if negb (returncode proc =? 0)%Z then
    raise (RuntimeError (returncode proc) (stderr proc))
  else
    match Re.match_submitted (stdout proc) with
    | None => raise TypeError
    | Some slurm_job_id => ret slurm_job_id
    end.

(** The launching loop; [procs] is only appended to in the source and is
    left out. *)
Fixpoint launch (w : World) (jobs : list job) (job_ids : list string) : M (list string) :=
  match jobs with
  | [] => ret job_ids
  | j :: jobs' =>
      slurm_job_id <- submit w j ;;
      launch w jobs' (job_ids ++ [slurm_job_id])
  end.

Definition squeue_argv (user jobs_str names_str : string) : list string :=
  [ "squeue";
    "--noheader";
    "--user"; user;
    "--jobs"; jobs_str;
    "--name"; names_str;
    "--states=RUNNING,PENDING,COMPLETING,PREEMPTED" ].

(** [while len(check_output(args)) > 0: time.sleep(0.5)]; every turn costs
    one unit of fuel. *)
Fixpoint poll (fuel : nat) (w : World) (args : list string) : M unit :=
  match fuel with
  | O => out_of_fuel
  | S fuel' =>
      out <- subprocess_check_output w args ;;
      if (0 <? String.length out)%nat then emit Sleep ;; poll fuel' w args
      else ret tt
  end.

Definition _slurm_launch_and_wait (w : World) (fuel : nat) (deplist : list string)
    (user : string) (partition : arg (option string)) (n_cpus : arg (option Z))
    (mem time_str : arg (option string)) (names : option (arg string)) : M unit :=
  job_ids <- launch w (slurm_jobs deplist partition n_cpus mem time_str names) [] ;;
  let names_str := join "," (job_names names (length deplist)) in
  let jobs_str := join "," job_ids in
  poll fuel w (squeue_argv user jobs_str names_str).

(** *** [redo_ifchange_slurm] *)

(** A list comprehension whose elements are computed for their effects. *)
Fixpoint for_each {A B : Type} (f : A -> M B) (l : list A) : M (list B) :=
  match l with
  | [] => ret []
  | a :: l' => b <- f a ;; bs <- for_each f l' ;; ret (b :: bs)
  end.

(** [[dep for dep, p in zip(deplist, partitions) if keep(p)]] *)
Definition deps_where (keep : option string -> bool) (deplist : list string)
    (partitions : list (option string)) : list string :=
  map fst (filter (fun dp => keep (snd dp)) (combine deplist partitions)).

(** The branch of the cin cluster. *)
Definition dispatch_local (w : World) (deplist : list string)
    (partition : arg (option string)) : M unit :=
  let partitions := as_list partition (length deplist) in
  for_each (fun dep => redo_ifchange w (Scalar dep))
           (deps_where _is_gpu_partition deplist partitions) ;;
  redo_ifchange w
    (PyList (deps_where (fun p => negb (_is_gpu_partition p)) deplist partitions)) ;;
  ret tt.

(** The branch of mlcloud.  [Path(None)] is a [TypeError]; the [assert] is
    executed (the interpreter does not run with [-O]). *)
Definition dispatch_remote (w : World) (fuel : nat) (user : string)
    (deplist : list string) (partition : arg (option string))
    (n_cpus : arg (option Z)) (mem time_str : arg (option string))
    (name : option (arg string)) : M unit :=
  match getenv w "WORK" with
  | None => raise TypeError
  | Some workdir =>
      if negb (forallb (resolves_under w workdir) deplist) then raise AssertionError
      else
        is_ood <- _redo_ood_list w deplist ;;
        _slurm_launch_and_wait w fuel
          (filter_by deplist is_ood)
          user
          (_redo_filter_list partition is_ood)
          (_redo_filter_list n_cpus is_ood)
          mem
          (_redo_filter_list time_str is_ood)
          (option_map (fun l => _redo_filter_list l is_ood) name) ;;
        redo_ifchange w (PyList deplist) ;;
        ret tt
  end.

Definition user_is (user : option string) (who : string) : bool :=
  match user with
  | Some u => String.eqb u who
  | None => false
  end.

Definition redo_ifchange_slurm (w : World) (fuel : nat) (deplist : list string)
    (partition : arg (option string)) (n_cpus : arg (option Z))
    (mem time_str : arg (option string)) (name : option (arg string)) : M unit :=
  let user := getenv w "USER" in
  if user_is user "nboehm" then dispatch_local w deplist partition
  else if user_is user "jnboehm91" then
    dispatch_remote w fuel "jnboehm91" deplist partition n_cpus mem time_str name
  else raise (ValueError user).

(** Running a computation from the empty trace. *)
Definition run {A : Type} (m : M A) : result A * trace := m [].

(** ** Vocabulary of the statements *)

(** The options of [sbatch] that the program uses with a value in the next
    argument. *)
Definition takes_value (opt : string) : bool :=
  str_in opt ["--partition"; "--cpus-per-task"; "--mem"; "--time"; "--job-name"].

(** The flags of an argument list as [sbatch] reads it: an option that
    takes a value consumes the argument after it, so a value that spells
    like a flag is not one. *)
Fixpoint flags (args : list string) : list string :=
  match args with
  | [] => []
  | opt :: rest =>
      opt :: (if takes_value opt
              then match rest with
                   | [] => []
                   | _ :: rest' => flags rest'
                   end
              else flags rest)
  end.

(** Whether [opt] is a flag of the argument vector [args], whose first
    element is the program. *)
Definition has_flag (opt : string) (args : list string) : bool :=
  str_in opt (flags (tl args)).


(** The trace after [k] status queries that were answered with jobs still
    active: each is followed by a sleep. *)
Fixpoint polled (k : nat) (c : command) (tr : trace) : trace :=
  match k with
  | O => tr
  | S k' => polled k' c (tr ++ [Spawn c; Sleep])
  end.

Definition is_spawn (ev : event) : bool :=
  match ev with
  | Spawn _ => true
  | _ => false
  end.

(** The number of processes started in a trace. *)
Definition spawns (tr : trace) : nat := length (filter is_spawn tr).

(** The program a command starts. *)
Definition program (c : command) : string := hd "" (argv c).

Definition is_submission (ev : event) : bool :=
  match ev with
  | Spawn c => String.eqb (program c) "sbatch"
  | _ => false
  end.

(** The submissions of a trace. *)
Definition submissions (tr : trace) : list event := filter is_submission tr.

(** The number of [true] in a list of booleans. *)
Definition count_true (bools : list bool) : nat := length (filter id bools).

(** The exception, if any, with which the launching loop answers the
    finished [sbatch] process [p]. *)
Definition submission_error (p : completed) : option exn :=
  if negb (returncode p =? 0)%Z then Some (RuntimeError (returncode p) (stderr p))
  else match Re.match_submitted (stdout p) with
       | None => Some TypeError
       | Some _ => None
       end.

(** A computation is stopped by a refused submission when, wherever its
    trace has a submission whose process ends in a [submission_error],
    that submission is the last event and the error is the result. *)
Definition stopped_by_refusal (w : World) {A : Type} (m : M A) : Prop :=
  forall tr, exists added,
    snd (m tr) = tr ++ added /\
    forall before c after e,
      added = before ++ Spawn c :: after ->
      program c = "sbatch" ->
      submission_error (run_proc w (tr ++ before) c) = Some e ->
      after = [] /\ fst (m tr) = Raise e.

(** The value of [_redo_ood_list] when the oracle process ended as [p]. *)
Definition stale_flags (p : completed) (deplist : list string) : list bool :=
  if (returncode p =? 0)%Z
  then map (fun dep => str_in dep (split "010"%char (stdout p))) deplist
  else map (fun _ => true) deplist.

(** The jobs the mlcloud branch hands to the launching loop when the
    staleness of the targets is [is_ood]. *)
Definition remote_jobs (deplist : list string) (is_ood : list bool)
    (partition : arg (option string)) (n_cpus : arg (option Z))
    (mem time_str : arg (option string)) (name : option (arg string)) : list job :=
  slurm_jobs (filter_by deplist is_ood)
    (_redo_filter_list partition is_ood)
    (_redo_filter_list n_cpus is_ood)
    mem
    (_redo_filter_list time_str is_ood)
    (option_map (fun l => _redo_filter_list l is_ood) name).

(** How many values a field offers to the stale targets: a scalar offers one
    to each of the [n] of them, a filtered list those at stale positions
    within its length. *)
Definition offered {A : Type} (x : arg A) (is_ood : list bool) (n : nat) : nat :=
  match x with
  | Scalar _ => n
  | PyList l => count_true (firstn (length l) is_ood)
  end.

(** The same for a field that is not filtered. *)
Definition offered_unfiltered {A : Type} (x : arg A) (n : nat) : nat :=
  match x with
  | Scalar _ => n
  | PyList l => length l
  end.

Definition offered_names (name : option (arg string)) (is_ood : list bool) (n : nat) : nat :=
  match name with
  | None => n
  | Some x => offered x is_ood n
  end.

(** ** Worlds for concrete runs *)

Definition starts (name : string) (ev : event) : bool :=
  match ev with
  | Spawn c => String.eqb (program c) name
  | _ => false
  end.

Fixpoint zeros (k : nat) : string :=
  match k with
  | O => ""
  | S k' => String "0" (zeros k')
  end.

(** The [k]-th submission is acknowledged as the job whose number is 1
    followed by [k] zeros. *)
Definition acknowledged (k : nat) : completed :=
  Completed 0 ("Submitted batch job 1" ++ zeros k ++ nl) "".

(** A cluster on which a target resolves under [$WORK] when its string
    starts with it, [redo-ood] ends as [ood], the [k]-th submission ends as
    [sbatch k], [squeue] lists a job for its first [busy] queries, and the
    build tool exits with [redo_status]. *)
Definition cluster (user : string) (ood : completed) (sbatch : nat -> completed)
    (busy : nat) (redo_status : Z) : World := {|
  environ := [("USER", user); ("WORK", "/work"); ("REDO_DEP_FD", "3")];
  resolves_under := fun workdir dep => prefix (workdir ++ "/") dep;
  run_proc := fun tr c =>
    if String.eqb (program c) "redo-ood" then ood
    else if String.eqb (program c) "sbatch" then
      sbatch (length (filter (starts "sbatch") tr))
    else if String.eqb (program c) "squeue" then
      if (length (filter (starts "squeue") tr) <? busy)%nat
      then Completed 0 "17 redo00 R" ""
      else Completed 0 "" ""
    else Completed redo_status "" ""
|}.

(** The oracle reports both targets stale. *)
Definition both_stale : completed :=
  Completed 0 ("/work/a.out" ++ nl ++ "/work/b.out" ++ nl) "".

(** The first submission is acknowledged, the second exits with 1. *)
Definition second_refused (k : nat) : completed :=
  match k with
  | O => acknowledged 0
  | S _ => Completed 1 "" "sbatch: error: invalid partition"
  end.

(** The first submission is acknowledged, the second exits with 0 and
    prints something else. *)
Definition second_garbled (k : nat) : completed :=
  match k with
  | O => acknowledged 0
  | S _ => Completed 0 "sbatch: job queued" ""
  end.

(** ** Further vocabulary *)

(** Every character of [s] is a decimal digit. *)
Fixpoint all_digits (s : string) : bool :=
  match s with
  | EmptyString => true
  | String c rest => Re.is_digit c && all_digits rest
  end.

(** [s] does not begin with a decimal digit. *)
Definition no_leading_digit (s : string) : bool :=
  match s with
  | EmptyString => true
  | String c _ => negb (Re.is_digit c)
  end.

(** The character [c] occurs in [s]. *)
Fixpoint occurs (c : ascii) (s : string) : bool :=
  match s with
  | EmptyString => false
  | String a rest => Ascii.eqb a c || occurs c rest
  end.

(** The variables of the redo session that are not handed to a job. *)
Definition session_variables : list string :=
  ["REDO_JS_FD"; "MAKEFLAGS"; "REDO_STATUS_FD"; "REDO_DEP_FD"].

(** The events of one turn of the launching loop. *)
Definition submit_events (w : World) (j : job) : list event :=
  [MkParent (j_dep j); Spawn (sbatch_command w j)].

(** An event of the polling loop: a status query or a sleep. *)
Definition is_poll_event (ev : event) : bool :=
  match ev with
  | Spawn c => String.eqb (program c) "squeue"
  | Sleep => true
  | MkParent _ => false
  end.

(** A list-valued field has one value for each of [n] targets. *)
Definition fits {A : Type} (x : arg A) (n : nat) : Prop :=
  match x with
  | Scalar _ => True
  | PyList l => length l = n
  end.

Definition names_fit (name : option (arg string)) (n : nat) : Prop :=
  match name with
  | None => True
  | Some x => fits x n
  end.

(** The targets an event hands to the build tool. *)
Definition built_by (ev : event) : list string :=
  match ev with
  | Spawn c => if String.eqb (program c) "redo-ifchange" then tl (argv c) else []
  | _ => []
  end.


(** [x] is a whole line of [out]: it has no newline, and in [out] it stands
    between the start or a newline and a newline or the end. *)
Definition whole_line (x out : string) : Prop :=
  occurs "010"%char x = false
  /\ exists pre post,
       out = (pre ++ x ++ post)%string
       /\ (pre = "" \/ exists p, pre = (p ++ nl)%string)
       /\ (post = "" \/ exists q, post = (nl ++ q)%string).

(** The cluster of [cluster], except that after [busy] status queries the
    scheduler cannot be reached: [squeue] exits with 1. *)
Definition unreachable_scheduler (user : string) (ood : completed) (busy : nat) : World := {|
  environ := environ (cluster user ood acknowledged busy 0);
  resolves_under := resolves_under (cluster user ood acknowledged busy 0);
  run_proc := fun tr c =>
    if String.eqb (program c) "squeue" then
      if (length (filter (starts "squeue") tr) <? busy)%nat
      then Completed 0 "17 redo00 R" ""
      else Completed 1 "" "slurm_load_jobs error: Unable to contact slurm controller"
    else run_proc (cluster user ood acknowledged busy 0) tr c
|}.

(** The [sbatch] process that answers the [k]-th job [j] when the launching
    loop runs on [jobs] from the trace [tr] and the jobs before it were
    acknowledged. *)
Definition reply (w : World) (tr : trace) (jobs : list job) (k : nat) (j : job) : completed :=
  run_proc w (tr ++ flat_map (submit_events w) (firstn k jobs) ++ [MkParent (j_dep j)])
           (sbatch_command w j).

(** The script fed to the process an event starts. *)
Definition script_of (ev : event) : option string :=
  match ev with
  | Spawn c => input c
  | _ => None
  end.



(** ** Basic facts *)

Lemma str_in_In (x : string) (l : list string) :
  str_in x l = true <-> In x l.
Proof.
  unfold str_in. rewrite existsb_exists. split.
  - intros [y [Hy Heq]]. apply String.eqb_eq in Heq. now subst.
  - intros H. exists x. split; [assumption | apply String.eqb_refl].
Qed.

Lemma spawns_app (tr1 tr2 : trace) :
  spawns (tr1 ++ tr2) = spawns tr1 + spawns tr2.
Proof. unfold spawns. now rewrite filter_app, length_app. Qed.

(** ** The partition classifier *)

(** C8.  [_is_gpu_partition p] is true exactly when [p] is one of the names
    of the fixed list; it is false on [None] and on every other name; and,
    being a function from the name to a boolean with no trace, it gives
    equal answers on equal arguments. *)
Theorem is_gpu_partition_membership :
  (forall p, _is_gpu_partition p = true <-> exists s, p = Some s /\ In s gpu_partitions)
  /\ _is_gpu_partition None = false
  /\ (forall s, ~ In s gpu_partitions -> _is_gpu_partition (Some s) = false)
  /\ (forall p q, p = q -> _is_gpu_partition p = _is_gpu_partition q).
Proof.
  repeat split.
  - destruct p as [s|]; cbn [_is_gpu_partition]; [|discriminate].
    intros H. exists s. split; [reflexivity | now apply str_in_In].
  - intros [s [-> Hin]]. cbn [_is_gpu_partition]. now apply str_in_In.
  - intros s Hnot. cbn [_is_gpu_partition]. destruct (str_in s gpu_partitions) eqn:E; [|reflexivity].
    exfalso. apply Hnot. now apply str_in_In.
  - intros p q ->. reflexivity.
Qed.

Lemma is_gpu_partition_membership_witness :
  _is_gpu_partition (Some "cpu-short") = false
  /\ _is_gpu_partition (Some "gpu-2080ti-interactive") = false
  /\ (_is_gpu_partition (Some "gpu-v100") = true <->
      exists s, Some "gpu-v100" = Some s /\ In s gpu_partitions).
Proof.
  destruct is_gpu_partition_membership as [Hiff [_ [Hunknown _]]].
  split; [|split].
  - apply Hunknown. simpl. intros H.
    repeat (destruct H as [H|H]; [discriminate H|]). exact H.
  - apply Hunknown. simpl. intros H.
    repeat (destruct H as [H|H]; [discriminate H|]). exact H.
  - apply Hiff.
Defined.

(** ** The staleness filter *)

Lemma nth_error_map_some {A B : Type} (f : A -> B) (l : list A) (i : nat) (a : A) :
  nth_error l i = Some a -> nth_error (map f l) i = Some (f a).
Proof. intros H. rewrite nth_error_map, H. reflexivity. Qed.

(** C3.  Whatever the oracle answers, [_redo_ood_list] returns one boolean
    per target, in the order of the targets, after the single oracle call;
    when the oracle exits with 0, the boolean of a target is true exactly
    when its string is one of the lines of the oracle's output. *)
Theorem redo_ood_list_spec (w : World) (deplist : list string) (tr : trace) :
  let ood_proc := run_proc w tr (ood_command deplist) in
  exists bools,
    _redo_ood_list w deplist tr = (Ok bools, tr ++ [Spawn (ood_command deplist)])
    /\ length bools = length deplist
    /\ (returncode ood_proc = 0%Z ->
        forall i dep, nth_error deplist i = Some dep ->
          exists b, nth_error bools i = Some b
            /\ (b = true <-> In dep (split "010"%char (stdout ood_proc)))).
Proof.
  intros ood_proc. unfold _redo_ood_list, bind, spawn, ret. fold ood_proc.
  destruct (returncode ood_proc =? 0)%Z eqn:Erc.
  - eexists. split; [reflexivity|]. split; [apply length_map|].
    intros _ i dep Hi. eexists. split.
    + apply nth_error_map_some. exact Hi.
    + apply str_in_In.
  - eexists. split; [reflexivity|]. split; [apply length_map|].
    intros Hrc. rewrite Hrc in Erc. discriminate Erc.
Qed.

(** C4.  When the oracle exits with a status other than 0, every target is
    reported stale: the list has one [true] per target. *)
Theorem redo_ood_list_failure (w : World) (deplist : list string) (tr : trace) :
  returncode (run_proc w tr (ood_command deplist)) <> 0%Z ->
  fst (_redo_ood_list w deplist tr) = Ok (repeat true (length deplist)).
Proof.
  intros Hrc. unfold _redo_ood_list, bind, spawn, ret.
  apply Z.eqb_neq in Hrc. rewrite Hrc. simpl. f_equal.
  clear Hrc. induction deplist as [|dep deps IH]; simpl; [reflexivity|].
  f_equal. exact IH.
Qed.

Lemma redo_ood_list_failure_witness :
  fst (_redo_ood_list (cluster "jnboehm91" (Completed 2 "" "no database") acknowledged 0 0)
         ["/work/a.out"; "/work/b.out"] [])
  = Ok [true; true].
Proof.
  apply (redo_ood_list_failure
           (cluster "jnboehm91" (Completed 2 "" "no database") acknowledged 0 0)
           ["/work/a.out"; "/work/b.out"] []).
  simpl. discriminate.
Defined.

(** ** Targets outside the workspace *)

Lemma forallb_false_of {A : Type} (f : A -> bool) (l : list A) (a : A) :
  In a l -> f a = false -> forallb f l = false.
Proof.
  intros Hin Hf. destruct (forallb f l) eqn:E; [|reflexivity].
  rewrite forallb_forall in E. rewrite (E a Hin) in Hf. discriminate Hf.
Qed.

(** C5.  On mlcloud, when some target does not resolve under the directory
    named by [WORK], the call ends with the assertion's error and the trace
    is the one it started from: no process was started, nothing submitted. *)
Theorem remote_outside_workdir (w : World) (fuel : nat) (deplist : list string)
    (partition : arg (option string)) (n_cpus : arg (option Z))
    (mem time_str : arg (option string)) (name : option (arg string))
    (workdir dep : string) (tr : trace) :
  getenv w "USER" = Some "jnboehm91" ->
  getenv w "WORK" = Some workdir ->
  In dep deplist ->
  resolves_under w workdir dep = false ->
  redo_ifchange_slurm w fuel deplist partition n_cpus mem time_str name tr
  = (Raise AssertionError, tr).
Proof.
  intros Huser Hwork Hin Hout.
  unfold redo_ifchange_slurm, dispatch_remote. rewrite Huser, Hwork.
  cbn [user_is]. change ("jnboehm91" =? "nboehm") with false.
  change ("jnboehm91" =? "jnboehm91") with true. cbv iota.
  rewrite (forallb_false_of _ _ _ Hin Hout). reflexivity.
Qed.

Lemma remote_outside_workdir_witness :
  run (redo_ifchange_slurm
         (cluster "jnboehm91" (Completed 0 "/work/b.out" "") acknowledged 0 0) 5
         ["/work/a.out"; "/home/b.out"] (Scalar (Some "cpu-short"))
         (Scalar None) (Scalar None) (Scalar None) None)
  = (Raise AssertionError, []).
Proof.
  apply (remote_outside_workdir
           (cluster "jnboehm91" (Completed 0 "/work/b.out" "") acknowledged 0 0) 5
           ["/work/a.out"; "/home/b.out"] (Scalar (Some "cpu-short"))
           (Scalar None) (Scalar None) (Scalar None) None
           "/work" "/home/b.out" []).
  - reflexivity.
  - reflexivity.
  - simpl. right. left. reflexivity.
  - reflexivity.
Defined.

(** ** The argument list of a submission *)



(** ** The completion poller *)

Lemma polled_snoc (k : nat) (c : command) (tr : trace) :
  polled (S k) c tr = polled k c tr ++ [Spawn c; Sleep].
Proof.
  revert tr. induction k as [|k IH]; intros tr; [reflexivity|].
  change (polled (S (S k)) c tr) with (polled (S k) c (tr ++ [Spawn c; Sleep])).
  rewrite IH. reflexivity.
Qed.

Lemma spawns_polled (k : nat) (c : command) (tr : trace) :
  spawns (polled k c tr) = spawns tr + k.
Proof.
  revert tr. induction k as [|k IH]; intros tr; simpl.
  - lia.
  - rewrite IH, spawns_app. simpl. unfold spawns at 2. simpl. lia.
Qed.

Lemma poll_step_busy (fuel : nat) (w : World) (args : list string) (tr : trace) :
  let p := run_proc w tr (Command args None None) in
  returncode p = 0%Z -> stdout p <> "" ->
  poll (S fuel) w args tr
  = poll fuel w args (tr ++ [Spawn (Command args None None); Sleep]).
Proof.
  intros p Hrc Hout. cbn [poll]. unfold subprocess_check_output, bind, spawn, ret, emit.
  fold p. rewrite Hrc. cbn [Z.eqb]. cbv iota.
  destruct (stdout p) as [|a s] eqn:E; [congruence|].
  cbn [String.length Nat.ltb Nat.leb]. cbv iota.
  rewrite <- app_assoc. reflexivity.
Qed.

Lemma poll_step_idle (fuel : nat) (w : World) (args : list string) (tr : trace) :
  let p := run_proc w tr (Command args None None) in
  returncode p = 0%Z -> stdout p = "" ->
  poll (S fuel) w args tr = (Ok tt, tr ++ [Spawn (Command args None None)]).
Proof.
  intros p Hrc Hout. cbn [poll]. unfold subprocess_check_output, bind, spawn, ret.
  fold p. rewrite Hrc, Hout. reflexivity.
Qed.

(** C7.  When the scheduler answers the first [n] status queries with a
    non-empty list of jobs and the next one with nothing, the poller, given
    fuel for more than [n] turns, returns; it has then asked exactly
    [n + 1] times, sleeping after each of the first [n] answers, and the
    empty answer is the last thing in the trace. *)
Theorem poll_returns_at_first_empty (w : World) (args : list string) (tr : trace)
    (n fuel : nat) :
  let c := Command args None None in
  (forall k, k < n ->
     returncode (run_proc w (polled k c tr) c) = 0%Z
     /\ stdout (run_proc w (polled k c tr) c) <> "") ->
  returncode (run_proc w (polled n c tr) c) = 0%Z ->
  stdout (run_proc w (polled n c tr) c) = "" ->
  n < fuel ->
  poll fuel w args tr = (Ok tt, polled n c tr ++ [Spawn c])
  /\ spawns (snd (poll fuel w args tr)) = spawns tr + (n + 1).
Proof.
  intros c Hbusy Hrc Hidle Hfuel.
  assert (Hrun : poll fuel w args tr = (Ok tt, polled n c tr ++ [Spawn c])).
  { revert tr fuel Hbusy Hrc Hidle Hfuel.
    induction n as [|n IH]; intros tr fuel Hbusy Hrc Hidle Hfuel.
    - destruct fuel as [|fuel]; [lia|].
      apply poll_step_idle; assumption.
    - destruct fuel as [|fuel]; [lia|].
      destruct (Hbusy 0) as [Hrc0 Hout0]; [lia|].
      rewrite poll_step_busy by assumption.
      apply IH; [|assumption|assumption|lia].
      intros k Hk. apply (Hbusy (S k)). lia. }
  split; [exact Hrun|].
  rewrite Hrun. cbn [snd]. rewrite spawns_app, spawns_polled.
  unfold spawns at 2. simpl. lia.
Qed.

Lemma poll_returns_at_first_empty_witness :
  poll 4 (cluster "jnboehm91" (Completed 0 "" "") acknowledged 2 0)
       (squeue_argv "jnboehm91" "17" "redo00") []
  = (Ok tt, polled 2 (Command (squeue_argv "jnboehm91" "17" "redo00") None None) []
            ++ [Spawn (Command (squeue_argv "jnboehm91" "17" "redo00") None None)])
  /\ spawns (snd (poll 4 (cluster "jnboehm91" (Completed 0 "" "") acknowledged 2 0)
                       (squeue_argv "jnboehm91" "17" "redo00") []))
     = spawns [] + (2 + 1).
Proof.
  apply (poll_returns_at_first_empty
           (cluster "jnboehm91" (Completed 0 "" "") acknowledged 2 0)
           (squeue_argv "jnboehm91" "17" "redo00") [] 2 4).
  - intros k Hk.
    destruct k as [|[|k]]; [split; [reflexivity | discriminate] ..| lia].
  - reflexivity.
  - reflexivity.
  - lia.
Defined.

(** ** Refused submissions stop the call *)

Section Refusal.

Variable w : World.

Lemma stopped_ret {A : Type} (a : A) : stopped_by_refusal w (ret a).
Proof.
  intros tr. exists []. split; [simpl; now rewrite app_nil_r|].
  intros [|ev before] c after e H; discriminate H.
Qed.

Lemma stopped_raise {A : Type} (e0 : exn) : stopped_by_refusal w (@raise A e0).
Proof.
  intros tr. exists []. split; [simpl; now rewrite app_nil_r|].
  intros [|ev before] c after e H; discriminate H.
Qed.

Lemma stopped_out_of_fuel {A : Type} : stopped_by_refusal w (@out_of_fuel A).
Proof.
  intros tr. exists []. split; [simpl; now rewrite app_nil_r|].
  intros [|ev before] c after e H; discriminate H.
Qed.

Lemma stopped_emit (ev : event) : is_submission ev = false -> stopped_by_refusal w (emit ev).
Proof.
  intros Hev tr. exists [ev]. split; [reflexivity|].
  intros [|ev' [|ev'' before]] c after e H Hprog; try discriminate H.
  injection H as -> _. simpl in Hev. rewrite Hprog in Hev. discriminate Hev.
Qed.

Lemma stopped_spawn (c0 : command) :
  program c0 <> "sbatch" -> stopped_by_refusal w (spawn w c0).
Proof.
  intros Hc0 tr. exists [Spawn c0]. split; [reflexivity|].
  intros [|ev' [|ev'' before]] c after e H Hprog; try discriminate H.
  injection H as -> _. contradiction.
Qed.

Lemma stopped_bind {A B : Type} (m : M A) (k : A -> M B) :
  stopped_by_refusal w m -> (forall a, stopped_by_refusal w (k a)) ->
  stopped_by_refusal w (bind m k).
Proof.
  intros Hm Hk tr. destruct (Hm tr) as [added1 [Htr1 Hstop1]].
  unfold bind. destruct (m tr) as [[a|e1|] tr1] eqn:Em; cbn [fst snd] in *.
  - destruct (Hk a tr1) as [added2 [Htr2 Hstop2]].
    exists (added1 ++ added2). split.
    + rewrite Htr2, Htr1. now rewrite app_assoc.
    + intros before c after e Hsplit Hprog Herr.
      apply app_eq_app in Hsplit. destruct Hsplit as [l [[H1 H2]|[H1 H2]]].
      * destruct l as [|ev l].
        -- rewrite app_nil_r in H1. subst added1. cbn [app] in H2.
           apply (Hstop2 [] c after e); [now symmetry|assumption|].
           rewrite app_nil_r, Htr1. exact Herr.
        -- injection H2 as <- ->.
           destruct (Hstop1 before c l e H1 Hprog Herr) as [_ Habs].
           discriminate Habs.
      * subst before. apply (Hstop2 l c after e); [assumption|assumption|].
        rewrite Htr1, <- app_assoc. exact Herr.
  - exists added1. split; [assumption|].
    intros before c after e Hsplit Hprog Herr.
    destruct (Hstop1 before c after e Hsplit Hprog Herr) as [Hafter Hres].
    split; [assumption|]. injection Hres as ->. reflexivity.
  - exists added1. split; [assumption|].
    intros before c after e Hsplit Hprog Herr.
    destruct (Hstop1 before c after e Hsplit Hprog Herr) as [_ Hres].
    discriminate Hres.
Qed.

(** One submission: the directory, the process, and then the verdict on
    the process. *)
Lemma submit_run (j : job) (tr : trace) :
  let p := run_proc w (tr ++ [MkParent (j_dep j)]) (sbatch_command w j) in
  snd (submit w j tr) = tr ++ [MkParent (j_dep j); Spawn (sbatch_command w j)]
  /\ match submission_error p with
     | Some e => fst (submit w j tr) = Raise e
     | None => exists id, Re.match_submitted (stdout p) = Some id
                          /\ fst (submit w j tr) = Ok id
     end.
Proof.
  intros p. unfold submit, bind, emit, spawn, submission_error. fold p.
  rewrite <- app_assoc. cbn [app].
  destruct (negb (returncode p =? 0)%Z); [split; reflexivity|].
  destruct (Re.match_submitted (stdout p)) as [id|]; [|split; reflexivity].
  split; [reflexivity|]. exists id. split; reflexivity.
Qed.

Lemma stopped_submit (j : job) : stopped_by_refusal w (submit w j).
Proof.
  intros tr. destruct (submit_run j tr) as [Htr Hres].
  exists [MkParent (j_dep j); Spawn (sbatch_command w j)]. split; [exact Htr|].
  intros [|ev' [|ev'' [|ev3 before]]] c after e H Hprog Herr; try discriminate H.
  injection H as Hev Hc Hafter. subst ev' c after. split; [reflexivity|].
  cbn zeta in Hres. rewrite Herr in Hres. exact Hres.
Qed.

Lemma stopped_launch (jobs : list job) (job_ids : list string) :
  stopped_by_refusal w (launch w jobs job_ids).
Proof.
  revert job_ids. induction jobs as [|j jobs IH]; intros job_ids; cbn [launch].
  - apply stopped_ret.
  - apply stopped_bind; [apply stopped_submit|]. intros id. apply IH.
Qed.

Lemma stopped_check_output (args : list string) :
  hd "" args <> "sbatch" -> stopped_by_refusal w (subprocess_check_output w args).
Proof.
  intros Hargs. unfold subprocess_check_output.
  apply stopped_bind; [apply stopped_spawn; exact Hargs|].
  intros p. destruct (returncode p =? 0)%Z; [apply stopped_ret | apply stopped_raise].
Qed.

Lemma stopped_poll (fuel : nat) (args : list string) :
  hd "" args <> "sbatch" -> stopped_by_refusal w (poll fuel w args).
Proof.
  intros Hargs. induction fuel as [|fuel IH]; cbn [poll].
  - apply stopped_out_of_fuel.
  - apply stopped_bind; [apply stopped_check_output; exact Hargs|].
    intros out. destruct (0 <? String.length out)%nat; [|apply stopped_ret].
    apply stopped_bind; [apply stopped_emit; reflexivity|]. intros _. exact IH.
Qed.

Lemma stopped_redo_ifchange (deplist : arg string) :
  stopped_by_refusal w (redo_ifchange w deplist).
Proof.
  unfold redo_ifchange, redo, subprocess_call.
  apply stopped_bind; [apply stopped_spawn; discriminate|].
  intros p. apply stopped_ret.
Qed.

Lemma stopped_for_each {A B : Type} (f : A -> M B) (l : list A) :
  (forall a, stopped_by_refusal w (f a)) -> stopped_by_refusal w (for_each f l).
Proof.
  intros Hf. induction l as [|a l IH]; cbn [for_each].
  - apply stopped_ret.
  - apply stopped_bind; [apply Hf|]. intros b.
    apply stopped_bind; [exact IH|]. intros bs. apply stopped_ret.
Qed.

Lemma stopped_slurm_launch_and_wait (fuel : nat) (deplist : list string) (user : string)
    (partition : arg (option string)) (n_cpus : arg (option Z))
    (mem time_str : arg (option string)) (names : option (arg string)) :
  stopped_by_refusal w
    (_slurm_launch_and_wait w fuel deplist user partition n_cpus mem time_str names).
Proof.
  unfold _slurm_launch_and_wait.
  apply stopped_bind; [apply stopped_launch|].
  intros job_ids. apply stopped_poll. discriminate.
Qed.

Lemma stopped_redo_ood_list (deplist : list string) :
  stopped_by_refusal w (_redo_ood_list w deplist).
Proof.
  unfold _redo_ood_list.
  apply stopped_bind; [apply stopped_spawn; discriminate|].
  intros p. destruct (returncode p =? 0)%Z; apply stopped_ret.
Qed.

Lemma stopped_redo_ifchange_slurm (fuel : nat) (deplist : list string)
    (partition : arg (option string)) (n_cpus : arg (option Z))
    (mem time_str : arg (option string)) (name : option (arg string)) :
  stopped_by_refusal w
    (redo_ifchange_slurm w fuel deplist partition n_cpus mem time_str name).
Proof.
  unfold redo_ifchange_slurm.
  destruct (user_is (getenv w "USER") "nboehm").
  - unfold dispatch_local.
    apply stopped_bind.
    { apply stopped_for_each. intros dep. apply stopped_redo_ifchange. }
    intros _. apply stopped_bind; [apply stopped_redo_ifchange|].
    intros _. apply stopped_ret.
  - destruct (user_is (getenv w "USER") "jnboehm91"); [|apply stopped_raise].
    unfold dispatch_remote. destruct (getenv w "WORK") as [workdir|]; [|apply stopped_raise].
    destruct (negb (forallb (resolves_under w workdir) deplist)); [apply stopped_raise|].
    apply stopped_bind; [apply stopped_redo_ood_list|]. intros is_ood.
    apply stopped_bind; [apply stopped_slurm_launch_and_wait|]. intros _.
    apply stopped_bind; [apply stopped_redo_ifchange|]. intros _. apply stopped_ret.
Qed.

End Refusal.

(** C9.  Wherever the trace of a dispatch call has a submission, if the
    [sbatch] process exited with a status other than 0 the call ends with
    the [RuntimeError] of that status, and if it exited with 0 but its
    output does not start with [Submitted batch job] and digits the call
    ends with the [TypeError] of the failed match; in both cases the
    refused submission is the last event of the trace: nothing is submitted
    after it, nothing is polled, and nothing is done about the submissions
    before it. *)
Theorem refused_submission_is_fatal (w : World) (fuel : nat) (deplist : list string)
    (partition : arg (option string)) (n_cpus : arg (option Z))
    (mem time_str : arg (option string)) (name : option (arg string))
    (tr before after : trace) (c : command) :
  let call := redo_ifchange_slurm w fuel deplist partition n_cpus mem time_str name in
  let p := run_proc w (tr ++ before) c in
  snd (call tr) = tr ++ before ++ Spawn c :: after ->
  program c = "sbatch" ->
  (returncode p <> 0%Z ->
     fst (call tr) = Raise (RuntimeError (returncode p) (stderr p)) /\ after = [])
  /\ (returncode p = 0%Z -> Re.match_submitted (stdout p) = None ->
     fst (call tr) = Raise TypeError /\ after = []).
Proof.
  intros call p Htrace Hprog.
  destruct (stopped_redo_ifchange_slurm w fuel deplist partition n_cpus mem
              time_str name tr) as [added [Hadded Hstop]].
  fold call in Hadded, Hstop. rewrite Hadded in Htrace.
  apply app_inv_head in Htrace.
  split.
  - intros Hrc.
    destruct (Hstop before c after (RuntimeError (returncode p) (stderr p)) Htrace Hprog)
      as [Hafter Hres].
    + unfold submission_error. fold p. apply Z.eqb_neq in Hrc. rewrite Hrc. reflexivity.
    + split; assumption.
  - intros Hrc Hnomatch.
    destruct (Hstop before c after TypeError Htrace Hprog) as [Hafter Hres].
    + unfold submission_error. fold p. rewrite Hrc, Hnomatch. reflexivity.
    + split; assumption.
Qed.

Lemma refused_submission_is_fatal_witness :
  (fst (run (redo_ifchange_slurm (cluster "jnboehm91" both_stale second_refused 0 0) 3
              ["/work/a.out"; "/work/b.out"] (Scalar (Some "cpu-short"))
              (Scalar None) (Scalar None) (Scalar None) None))
   = Raise (RuntimeError 1 "sbatch: error: invalid partition")
   /\ @nil event = [])
  /\ (fst (run (redo_ifchange_slurm (cluster "jnboehm91" both_stale second_garbled 0 0) 3
                 ["/work/a.out"; "/work/b.out"] (Scalar (Some "cpu-short"))
                 (Scalar None) (Scalar None) (Scalar None) None))
      = Raise TypeError
      /\ @nil event = []).
Proof.
  split.
  - apply (proj1 (refused_submission_is_fatal
             (cluster "jnboehm91" both_stale second_refused 0 0) 3
             ["/work/a.out"; "/work/b.out"] (Scalar (Some "cpu-short"))
             (Scalar None) (Scalar None) (Scalar None) None
             []
             [ Spawn (ood_command ["/work/a.out"; "/work/b.out"]);
               MkParent "/work/a.out";
               Spawn (sbatch_command (cluster "jnboehm91" both_stale second_refused 0 0)
                        (Job "redo00" "/work/a.out" (Some "cpu-short") None None None));
               MkParent "/work/b.out" ]
             []
             (sbatch_command (cluster "jnboehm91" both_stale second_refused 0 0)
                (Job "redo01" "/work/b.out" (Some "cpu-short") None None None))
             eq_refl eq_refl)).
    simpl. discriminate.
  - apply (proj2 (refused_submission_is_fatal
             (cluster "jnboehm91" both_stale second_garbled 0 0) 3
             ["/work/a.out"; "/work/b.out"] (Scalar (Some "cpu-short"))
             (Scalar None) (Scalar None) (Scalar None) None
             []
             [ Spawn (ood_command ["/work/a.out"; "/work/b.out"]);
               MkParent "/work/a.out";
               Spawn (sbatch_command (cluster "jnboehm91" both_stale second_garbled 0 0)
                        (Job "redo00" "/work/a.out" (Some "cpu-short") None None None));
               MkParent "/work/b.out" ]
             []
             (sbatch_command (cluster "jnboehm91" both_stale second_garbled 0 0)
                (Job "redo01" "/work/b.out" (Some "cpu-short") None None None))
             eq_refl eq_refl)).
    + reflexivity.
    + reflexivity.
Defined.

(** ** Lists of different lengths *)

Lemma count_true_cons (b : bool) (bools : list bool) :
  count_true (b :: bools) = (if b then 1 else 0) + count_true bools.
Proof. unfold count_true. destruct b; reflexivity. Qed.

Lemma length_filter_by {A : Type} (l : list A) (bools : list bool) :
  length (filter_by l bools) = count_true (firstn (length l) bools).
Proof.
  unfold filter_by. rewrite length_map. revert bools.
  induction l as [|a l IH]; intros [|b bools]; try reflexivity.
  cbn [combine filter snd length firstn]. rewrite count_true_cons.
  destruct b; cbn [length]; rewrite IH; reflexivity.
Qed.

Lemma length_zip6 (names deplist : list string) (partition : list (option string))
    (n_cpus : list (option Z)) (mem time_str : list (option string)) :
  length (zip6 names deplist partition n_cpus mem time_str)
  = Nat.min (length names) (Nat.min (length deplist) (Nat.min (length partition)
      (Nat.min (length n_cpus) (Nat.min (length mem) (length time_str))))).
Proof. unfold zip6. rewrite length_map. now rewrite !length_combine. Qed.

Lemma length_as_list_filtered {A : Type} (x : arg A) (is_ood : list bool) (n : nat) :
  length (as_list (_redo_filter_list x is_ood) n) = offered x is_ood n.
Proof.
  destruct x as [a|l]; cbn [_redo_filter_list as_list offered].
  - apply repeat_length.
  - apply length_filter_by.
Qed.

Lemma length_as_list {A : Type} (x : arg A) (n : nat) :
  length (as_list x n) = offered_unfiltered x n.
Proof. destruct x as [a|l]; [apply repeat_length | reflexivity]. Qed.

Lemma length_job_names_filtered (name : option (arg string)) (is_ood : list bool) (n : nat) :
  length (job_names (option_map (fun l => _redo_filter_list l is_ood) name) n)
  = offered_names name is_ood n.
Proof.
  destruct name as [[s|l]|]; cbn [option_map _redo_filter_list job_names offered_names offered].
  - apply repeat_length.
  - apply length_filter_by.
  - rewrite length_map. apply length_seq.
Qed.

(** The number of jobs of the mlcloud branch. *)
Lemma length_remote_jobs (deplist : list string) (is_ood : list bool)
    (partition : arg (option string)) (n_cpus : arg (option Z))
    (mem time_str : arg (option string)) (name : option (arg string)) :
  length is_ood = length deplist ->
  let n := count_true is_ood in
  length (remote_jobs deplist is_ood partition n_cpus mem time_str name)
  = Nat.min (offered_names name is_ood n) (Nat.min n
      (Nat.min (offered partition is_ood n) (Nat.min (offered n_cpus is_ood n)
         (Nat.min (offered_unfiltered mem n) (offered time_str is_ood n))))).
Proof.
  intros Hlen n. unfold remote_jobs, slurm_jobs. rewrite length_zip6.
  assert (Hn : length (filter_by deplist is_ood) = n).
  { rewrite length_filter_by, <- Hlen. now rewrite firstn_all. }
  rewrite Hn, length_job_names_filtered, !length_as_list_filtered, length_as_list.
  reflexivity.
Qed.

Lemma submissions_app (tr1 tr2 : trace) :
  submissions (tr1 ++ tr2) = submissions tr1 ++ submissions tr2.
Proof. apply filter_app. Qed.

Section Acknowledged.

Variable w : World.

(** Every submission is acknowledged with a job number. *)
Hypothesis always_acknowledged :
  forall tr c, program c = "sbatch" -> submission_error (run_proc w tr c) = None.

Lemma launch_acknowledged (jobs : list job) (job_ids : list string) (tr : trace) :
  exists ids added,
    launch w jobs job_ids tr = (Ok ids, tr ++ added)
    /\ length (submissions added) = length jobs.
Proof.
  revert job_ids tr. induction jobs as [|j jobs IH]; intros job_ids tr; cbn [launch].
  - exists job_ids, []. split; [unfold ret; now rewrite app_nil_r | reflexivity].
  - destruct (submit_run w j tr) as [Htr Hres]. cbn zeta in Hres.
    rewrite always_acknowledged in Hres by reflexivity.
    destruct Hres as [id [_ Hid]].
    destruct (IH (job_ids ++ [id]) (tr ++ [MkParent (j_dep j); Spawn (sbatch_command w j)]))
      as [ids [added [Hrun Hcount]]].
    exists ids, ([MkParent (j_dep j); Spawn (sbatch_command w j)] ++ added). split.
    + unfold bind at 1. destruct (submit w j tr) as [r tr1]. cbn [fst snd] in Htr, Hid.
      subst r tr1. rewrite Hrun. now rewrite app_assoc.
    + rewrite submissions_app, length_app, Hcount. reflexivity.
Qed.

End Acknowledged.

Lemma poll_unfold (w : World) (fuel : nat) (args : list string) (tr : trace) :
  poll (S fuel) w args tr =
    let c := Command args None None in
    let p := run_proc w tr c in
    if (returncode p =? 0)%Z then
      if (0 <? String.length (stdout p))%nat
      then poll fuel w args (tr ++ [Spawn c; Sleep])
      else (Ok tt, tr ++ [Spawn c])
    else (Raise (CalledProcessError (returncode p)), tr ++ [Spawn c]).
Proof.
  cbn [poll]. unfold subprocess_check_output, bind, spawn, ret, raise, emit. cbn zeta.
  destruct (returncode _ =? 0)%Z; [|reflexivity].
  destruct (0 <? String.length _)%nat; [|reflexivity].
  now rewrite <- app_assoc.
Qed.

(** The poller submits nothing, and the only exception it can end with is
    that of a failed status query. *)
Lemma poll_effects (w : World) (fuel : nat) (args : list string) (tr : trace) :
  hd "" args <> "sbatch" ->
  exists added,
    snd (poll fuel w args tr) = tr ++ added
    /\ submissions added = []
    /\ (forall e, fst (poll fuel w args tr) = Raise e -> exists rc, e = CalledProcessError rc).
Proof.
  intros Hargs. revert tr. induction fuel as [|fuel IH]; intros tr.
  - exists []. cbn. rewrite app_nil_r. repeat split. intros e H. discriminate H.
  - rewrite poll_unfold. cbn zeta.
    set (c := Command args None None). set (p := run_proc w tr c).
    assert (Hq : submissions [Spawn c] = []).
    { unfold submissions. cbn [filter is_submission].
      change (program c) with (hd "" args).
      destruct (String.eqb_spec (hd "" args) "sbatch"); [contradiction | reflexivity]. }
    destruct (returncode p =? 0)%Z.
    + destruct (0 <? String.length (stdout p))%nat.
      * destruct (IH (tr ++ [Spawn c; Sleep])) as [added [Htr [Hsub Hexn]]].
        exists ([Spawn c; Sleep] ++ added).
        split; [rewrite Htr; now rewrite <- !app_assoc|].
        split; [|exact Hexn].
        rewrite submissions_app, Hsub, app_nil_r.
        change [Spawn c; Sleep] with ([Spawn c] ++ [Sleep]).
        rewrite submissions_app, Hq. reflexivity.
      * exists [Spawn c]. cbn [fst snd].
        repeat split; [exact Hq|]. intros e H. discriminate H.
    + exists [Spawn c]. cbn [fst snd].
      repeat split; [exact Hq|]. intros e H. injection H as <-. now eexists.
Qed.

Lemma redo_ood_list_run (w : World) (deplist : list string) (tr : trace) :
  _redo_ood_list w deplist tr
  = (Ok (stale_flags (run_proc w tr (ood_command deplist)) deplist),
     tr ++ [Spawn (ood_command deplist)]).
Proof.
  unfold _redo_ood_list, stale_flags, bind, spawn, ret.
  destruct (returncode _ =? 0)%Z; reflexivity.
Qed.

Lemma length_stale_flags (p : completed) (deplist : list string) :
  length (stale_flags p deplist) = length deplist.
Proof. unfold stale_flags. destruct (returncode p =? 0)%Z; apply length_map. Qed.

(** The mlcloud branch, once the assertion holds, launches [remote_jobs]. *)
Lemma dispatch_remote_run (w : World) (fuel : nat) (user : string) (deplist : list string)
    (partition : arg (option string)) (n_cpus : arg (option Z))
    (mem time_str : arg (option string)) (name : option (arg string))
    (workdir : string) (tr : trace) :
  getenv w "WORK" = Some workdir ->
  forallb (resolves_under w workdir) deplist = true ->
  let is_ood := stale_flags (run_proc w tr (ood_command deplist)) deplist in
  dispatch_remote w fuel user deplist partition n_cpus mem time_str name tr
  = ((job_ids <- launch w (remote_jobs deplist is_ood partition n_cpus mem time_str name) [] ;;
      poll fuel w
        (squeue_argv user (join "," job_ids)
           (join "," (job_names (option_map (fun l => _redo_filter_list l is_ood) name)
                        (length (filter_by deplist is_ood)))))) ;;
     redo_ifchange w (PyList deplist) ;;
     ret tt) (tr ++ [Spawn (ood_command deplist)]).
Proof.
  intros Hwork Hall is_ood. unfold dispatch_remote. rewrite Hwork, Hall. cbn [negb].
  unfold bind at 1. rewrite redo_ood_list_run. reflexivity.
Qed.

(** C1, as the program has it.  No length is compared with another: the
    stale targets and the values of the fields are paired by position and
    the pairing stops at the shortest list.  On mlcloud, when the targets
    lie in the workspace and [sbatch] acknowledges every job, the number of
    jobs submitted is the least of: the number of stale targets; for the
    partition, CPU, time and name lists, the number of stale positions
    within the list; and the length of the memory list.  The call can then
    only fail in the status query. *)
Theorem mismatched_lengths_are_zipped (w : World) (fuel : nat) (deplist : list string)
    (partition : arg (option string)) (n_cpus : arg (option Z))
    (mem time_str : arg (option string)) (name : option (arg string))
    (workdir : string) :
  getenv w "USER" = Some "jnboehm91" ->
  getenv w "WORK" = Some workdir ->
  forallb (resolves_under w workdir) deplist = true ->
  (forall tr c, program c = "sbatch" -> submission_error (run_proc w tr c) = None) ->
  let call := run (redo_ifchange_slurm w fuel deplist partition n_cpus mem time_str name) in
  let is_ood := stale_flags (run_proc w [] (ood_command deplist)) deplist in
  let n := count_true is_ood in
  length (submissions (snd call))
  = Nat.min (offered_names name is_ood n) (Nat.min n
      (Nat.min (offered partition is_ood n) (Nat.min (offered n_cpus is_ood n)
         (Nat.min (offered_unfiltered mem n) (offered time_str is_ood n)))))
  /\ (forall e, fst call = Raise e -> exists rc, e = CalledProcessError rc).
Proof.
  intros Huser Hwork Hall Hack call is_ood n.
  pose proof (length_remote_jobs deplist is_ood partition n_cpus mem time_str name
                (length_stale_flags _ _)) as Hjobs.
  cbv zeta in Hjobs. subst n. rewrite <- Hjobs. clear Hjobs.
  set (jobs := remote_jobs deplist is_ood partition n_cpus mem time_str name).
  assert (Hcall : exists res tr',
             call = (res, tr')
             /\ length (submissions tr') = length jobs
             /\ (forall e, res = Raise e -> exists rc, e = CalledProcessError rc)).
  { subst call. unfold run, redo_ifchange_slurm. rewrite Huser. cbn [user_is].
    change ("jnboehm91" =? "nboehm") with false.
    change ("jnboehm91" =? "jnboehm91") with true. cbv iota.
    rewrite (dispatch_remote_run w fuel "jnboehm91" deplist partition n_cpus mem
               time_str name workdir [] Hwork Hall).
    fold is_ood. fold jobs. cbn [app].
    destruct (launch_acknowledged w Hack jobs [] [Spawn (ood_command deplist)])
      as [ids [added [Hlaunch Hcount]]].
    unfold bind at 1 2. rewrite Hlaunch.
    set (args := squeue_argv _ _ _).
    destruct (poll_effects w fuel args ([Spawn (ood_command deplist)] ++ added))
      as [added2 [Htr2 [Hsub2 Hexn]]]; [discriminate|].
    destruct (poll fuel w args ([Spawn (ood_command deplist)] ++ added)) as [r tr2].
    cbn [fst snd] in Htr2, Hexn. subst tr2.
    destruct r as [[]|e|].
    - unfold redo_ifchange, redo, subprocess_call, bind, spawn, ret.
      eexists. eexists. split; [reflexivity|].
      split; [|intros e H; discriminate H].
      rewrite !submissions_app, Hsub2, !length_app, Hcount. simpl. lia.
    - eexists. eexists. split; [reflexivity|]. split; [|exact Hexn].
      rewrite !submissions_app, Hsub2, !length_app, Hcount. simpl. lia.
    - eexists. eexists. split; [reflexivity|].
      split; [|intros e H; discriminate H].
      rewrite !submissions_app, Hsub2, !length_app, Hcount. simpl. lia. }
  destruct Hcall as [res [tr' [Hcall [Hcount Hexn]]]].
  rewrite Hcall. cbn [fst snd]. split; assumption.
Qed.

Lemma cluster_acknowledges (user : string) (ood : completed) (busy : nat) (status : Z) :
  forall tr c, program c = "sbatch" ->
    submission_error (run_proc (cluster user ood acknowledged busy status) tr c) = None.
Proof. intros tr c Hc. cbn [run_proc cluster]. rewrite Hc. reflexivity. Defined.

Lemma mismatched_lengths_are_zipped_witness :
  length (submissions (snd (run (redo_ifchange_slurm
            (cluster "jnboehm91" both_stale acknowledged 1 0) 3
            ["/work/a.out"; "/work/b.out"] (PyList [Some "cpu-short"])
            (Scalar None) (Scalar None) (Scalar None) None))))
  = 1
  /\ (forall e,
        fst (run (redo_ifchange_slurm
               (cluster "jnboehm91" both_stale acknowledged 1 0) 3
               ["/work/a.out"; "/work/b.out"] (PyList [Some "cpu-short"])
               (Scalar None) (Scalar None) (Scalar None) None)) = Raise e ->
        exists rc, e = CalledProcessError rc).
Proof.
  apply (mismatched_lengths_are_zipped
           (cluster "jnboehm91" both_stale acknowledged 1 0) 3
           ["/work/a.out"; "/work/b.out"] (PyList [Some "cpu-short"])
           (Scalar None) (Scalar None) (Scalar None) None "/work").
  - reflexivity.
  - reflexivity.
  - reflexivity.
  - apply cluster_acknowledges.
Defined.

(** C1, as it is written, fails: with two stale targets and a partition
    list of one element the call returns normally after submitting a job
    for the first target; the second target is not submitted at all. *)
Lemma mismatched_partition_list_is_accepted :
  let w := cluster "jnboehm91" both_stale acknowledged 1 0 in
  let deplist := ["/work/a.out"; "/work/b.out"] in
  let partitions := [Some "cpu-short"] in
  let call := run (redo_ifchange_slurm w 3 deplist (PyList partitions)
                     (Scalar None) (Scalar None) (Scalar None) None) in
  length partitions <> length deplist
  /\ fst call = Ok tt
  /\ submissions (snd call)
     = [Spawn (sbatch_command w
                 (Job "redo00" "/work/a.out" (Some "cpu-short") None None None))].
Proof.
  cbv zeta. split; [discriminate|]. split; reflexivity.
Qed.

(** ** The local branch *)

(** The command of [redo_ifchange] on the targets [deps]. *)
Lemma redo_ifchange_run (w : World) (deps : arg string) (tr : trace) :
  let c := Command ("redo-ifchange"
                    :: match deps with Scalar dep => [dep] | PyList l => l end)
                   None None in
  redo_ifchange w deps tr = (Ok (returncode (run_proc w tr c)), tr ++ [Spawn c]).
Proof. destruct deps; reflexivity. Qed.

Lemma for_each_redo_ifchange (w : World) (deps : list string) (tr : trace) :
  exists statuses,
    for_each (fun dep => redo_ifchange w (Scalar dep)) deps tr
    = (Ok statuses,
       tr ++ map (fun dep => Spawn (Command ["redo-ifchange"; dep] None None)) deps).
Proof.
  revert tr. induction deps as [|dep deps IH]; intros tr; cbn [for_each map].
  - exists []. unfold ret. now rewrite app_nil_r.
  - unfold bind at 1. rewrite redo_ifchange_run. cbn zeta.
    destruct (IH (tr ++ [Spawn (Command ["redo-ifchange"; dep] None None)]))
      as [statuses Hrun].
    eexists. unfold bind. rewrite Hrun. unfold ret.
    rewrite <- app_assoc. reflexivity.
Qed.

(** C2, as the program has it.  On the cin cluster the exit statuses of
    the build tool are dropped: whatever they are, the call returns
    normally after one invocation for each target paired with a GPU
    partition, in order, and one invocation for all the targets paired
    with another partition. *)
Theorem local_dispatch_drops_exit_status (w : World) (fuel : nat) (deplist : list string)
    (partition : arg (option string)) (n_cpus : arg (option Z))
    (mem time_str : arg (option string)) (name : option (arg string)) (tr : trace) :
  getenv w "USER" = Some "nboehm" ->
  let partitions := as_list partition (length deplist) in
  redo_ifchange_slurm w fuel deplist partition n_cpus mem time_str name tr
  = (Ok tt,
     tr ++ map (fun dep => Spawn (Command ["redo-ifchange"; dep] None None))
               (deps_where _is_gpu_partition deplist partitions)
        ++ [Spawn (Command
                     ("redo-ifchange"
                      :: deps_where (fun p => negb (_is_gpu_partition p)) deplist partitions)
                     None None)]).
Proof.
  intros Huser partitions. unfold redo_ifchange_slurm, dispatch_local.
  rewrite Huser. cbn [user_is]. change ("nboehm" =? "nboehm") with true. cbv iota.
  fold partitions.
  destruct (for_each_redo_ifchange w (deps_where _is_gpu_partition deplist partitions) tr)
    as [statuses Hrun].
  unfold bind at 1. rewrite Hrun.
  unfold bind. rewrite redo_ifchange_run. cbn zeta. unfold ret.
  rewrite <- app_assoc. reflexivity.
Qed.

Lemma local_dispatch_drops_exit_status_witness :
  run (redo_ifchange_slurm (cluster "nboehm" both_stale acknowledged 0 1) 0
         ["/work/a.out"; "/work/b.out"; "/work/c.out"]
         (PyList [Some "gpu-v100"; Some "cpu-short"; None])
         (Scalar None) (Scalar None) (Scalar None) None)
  = (Ok tt,
     [ Spawn (Command ["redo-ifchange"; "/work/a.out"] None None);
       Spawn (Command ["redo-ifchange"; "/work/b.out"; "/work/c.out"] None None) ]).
Proof.
  apply (local_dispatch_drops_exit_status
           (cluster "nboehm" both_stale acknowledged 0 1) 0
           ["/work/a.out"; "/work/b.out"; "/work/c.out"]
           (PyList [Some "gpu-v100"; Some "cpu-short"; None])
           (Scalar None) (Scalar None) (Scalar None) None []).
  reflexivity.
Defined.

(** C2, as it is written, fails: the build tool exits with 1 in the first
    invocation (and in the second), yet the call returns normally. *)
Lemma local_failure_is_not_fatal :
  let w := cluster "nboehm" both_stale acknowledged 0 1 in
  let call := run (redo_ifchange_slurm w 0 ["/work/a.out"; "/work/b.out"]
                     (PyList [Some "gpu-v100"; Some "cpu-short"])
                     (Scalar None) (Scalar None) (Scalar None) None) in
  let first := Command ["redo-ifchange"; "/work/a.out"] None None in
  snd call = [Spawn first; Spawn (Command ["redo-ifchange"; "/work/b.out"] None None)]
  /\ returncode (run_proc w [] first) = 1%Z
  /\ fst call = Ok tt.
Proof. cbv zeta. repeat split. Qed.

(** ** Which value goes with which target *)

Lemma filter_by_cons {A : Type} (a : A) (l : list A) (b : bool) (bools : list bool) :
  filter_by (a :: l) (b :: bools)
  = if b then a :: filter_by l bools else filter_by l bools.
Proof. unfold filter_by. destruct b; reflexivity. Qed.

Lemma filter_by_nil_r {A : Type} (l : list A) : filter_by l [] = [].
Proof. destruct l; reflexivity. Qed.

(** The [k]-th element that passes the filter sits in the list at the
    position of the [k]-th [true]. *)
Lemma nth_error_filter_by {A : Type} (l : list A) (bools : list bool) (k : nat) (x : A) :
  nth_error (filter_by l bools) k = Some x ->
  exists i, nth_error l i = Some x
            /\ nth_error bools i = Some true
            /\ count_true (firstn i bools) = k.
Proof.
  revert bools k. induction l as [|a l IH]; intros bools k H.
  - destruct k; discriminate H.
  - destruct bools as [|b bools].
    + rewrite filter_by_nil_r in H. destruct k; discriminate H.
    + rewrite filter_by_cons in H. destruct b.
      * destruct k as [|k].
        -- injection H as ->. exists 0. repeat split.
        -- cbn [nth_error] in H. destruct (IH bools k H) as [i [Hl [Hb Hc]]].
           exists (S i). cbn [nth_error firstn]. rewrite count_true_cons.
           repeat split; [assumption | assumption | now rewrite Hc].
      * destruct (IH bools k H) as [i [Hl [Hb Hc]]].
        exists (S i). cbn [nth_error firstn]. rewrite count_true_cons.
        repeat split; assumption.
Qed.

(** There is one position for the [k]-th [true]. *)
Lemma kth_true_unique (bools : list bool) (i i' k : nat) :
  nth_error bools i = Some true -> count_true (firstn i bools) = k ->
  nth_error bools i' = Some true -> count_true (firstn i' bools) = k ->
  i = i'.
Proof.
  revert i i' k. induction bools as [|b bools IH]; intros i i' k Hi Hk Hi' Hk'.
  - destruct i; discriminate Hi.
  - destruct i as [|i], i' as [|i']; cbn [nth_error firstn] in *.
    + reflexivity.
    + injection Hi as ->. rewrite count_true_cons in Hk'.
      cbn in Hk. rewrite <- Hk in Hk'. discriminate Hk'.
    + injection Hi' as ->. rewrite count_true_cons in Hk.
      cbn in Hk'. rewrite <- Hk' in Hk. discriminate Hk.
    + f_equal. rewrite count_true_cons in Hk, Hk'.
      apply (IH i i' (count_true (firstn i bools))); [assumption|reflexivity|assumption|].
      lia.
Qed.

Lemma count_true_firstn_le (bools : list bool) (i : nat) :
  count_true (firstn i bools) <= i.
Proof.
  revert i. induction bools as [|b bools IH]; intros [|i]; cbn [firstn];
    try (cbn; lia).
  rewrite count_true_cons. specialize (IH i). destruct b; lia.
Qed.

(** Fewer [true]s than positions means an earlier [false]. *)
Lemma count_true_firstn_lt (bools : list bool) (i : nat) :
  i <= length bools ->
  (count_true (firstn i bools) < i <->
   exists i', i' < i /\ nth_error bools i' = Some false).
Proof.
  revert i. induction bools as [|b bools IH]; intros i Hi.
  - cbn [length] in Hi. assert (i = 0) by lia. subst i. cbn. split; [lia|].
    intros [i' [H _]]. lia.
  - destruct i as [|i]; cbn [firstn].
    + cbn. split; [lia|]. intros [i' [H _]]. lia.
    + cbn [length] in Hi. rewrite count_true_cons.
      specialize (IH i ltac:(lia)). pose proof (count_true_firstn_le bools i) as Hle.
      destruct b.
      * split.
        -- intros H. destruct (proj1 IH ltac:(lia)) as [i' [Hlt Hnth]].
           exists (S i'). split; [lia | exact Hnth].
        -- intros [[|i'] [Hlt Hnth]]; [discriminate Hnth|].
           cbn [nth_error] in Hnth.
           assert (count_true (firstn i bools) < i); [|lia].
           apply IH. exists i'. split; [lia | exact Hnth].
      * split; [|lia]. intros _. exists 0. split; [lia | reflexivity].
Qed.

Lemma nth_error_combine_some {A B : Type} (l : list A) (l' : list B) (k : nat) (x : A) (y : B) :
  nth_error (combine l l') k = Some (x, y) ->
  nth_error l k = Some x /\ nth_error l' k = Some y.
Proof.
  revert l' k. induction l as [|a l IH]; intros [|b l'] k H;
    try (destruct k; discriminate H).
  destruct k as [|k]; cbn [combine nth_error] in *.
  - injection H as -> ->. split; reflexivity.
  - apply IH. exact H.
Qed.

(** The [k]-th job takes the [k]-th element of each of the six lists. *)
Lemma nth_error_zip6 (names deplist : list string) (partition : list (option string))
    (n_cpus : list (option Z)) (mem time_str : list (option string)) (k : nat) (j : job) :
  nth_error (zip6 names deplist partition n_cpus mem time_str) k = Some j ->
  nth_error names k = Some (j_name j)
  /\ nth_error deplist k = Some (j_dep j)
  /\ nth_error partition k = Some (j_part j)
  /\ nth_error n_cpus k = Some (j_cpus j)
  /\ nth_error mem k = Some (j_mem j)
  /\ nth_error time_str k = Some (j_time j).
Proof.
  unfold zip6. rewrite nth_error_map.
  destruct (nth_error _ k) as [[name [dep [part [n_cpu [m t]]]]]|] eqn:E;
    cbn [option_map]; intros H; [|discriminate H].
  injection H as <-. cbn [j_name j_dep j_part j_cpus j_mem j_time].
  apply nth_error_combine_some in E. destruct E as [H1 E].
  apply nth_error_combine_some in E. destruct E as [H2 E].
  apply nth_error_combine_some in E. destruct E as [H3 E].
  apply nth_error_combine_some in E. destruct E as [H4 E].
  apply nth_error_combine_some in E. destruct E as [H5 H6].
  repeat split; assumption.
Qed.

(** With a list of memory values, the [k]-th job of the mlcloud branch
    takes the [k]-th value of the list as it was given, while its partition,
    CPU count, time limit and name, when given as lists, are the values at
    the position [i] of its target in the original list, where [k] is the
    number of stale targets before position [i]. *)
Lemma remote_job_pairing (deplist : list string) (is_ood : list bool)
    (partition : arg (option string)) (n_cpus : arg (option Z))
    (ms : list (option string)) (time_str : arg (option string))
    (name : option (arg string)) (k : nat) (j : job) :
  nth_error (remote_jobs deplist is_ood partition n_cpus (PyList ms) time_str name) k
  = Some j ->
  nth_error ms k = Some (j_mem j)
  /\ exists i,
       nth_error deplist i = Some (j_dep j)
       /\ nth_error is_ood i = Some true
       /\ count_true (firstn i is_ood) = k
       /\ k <= i
       /\ (k < i <-> exists i', i' < i /\ nth_error is_ood i' = Some false)
       /\ (forall ps, partition = PyList ps -> nth_error ps i = Some (j_part j))
       /\ (forall cs, n_cpus = PyList cs -> nth_error cs i = Some (j_cpus j))
       /\ (forall ts, time_str = PyList ts -> nth_error ts i = Some (j_time j))
       /\ (forall ns, name = Some (PyList ns) -> nth_error ns i = Some (j_name j)).
Proof.
  intros H. unfold remote_jobs, slurm_jobs in H.
  apply nth_error_zip6 in H. destruct H as [Hname [Hdep [Hpart [Hcpus [Hmem Htime]]]]].
  split; [exact Hmem|].
  destruct (nth_error_filter_by _ _ _ _ Hdep) as [i [Hi [Hood Hk]]].
  assert (Hsame : forall (A : Type) (l : list A) (x : A),
             nth_error (filter_by l is_ood) k = Some x -> nth_error l i = Some x).
  { intros A l x Hx. destruct (nth_error_filter_by _ _ _ _ Hx) as [i' [Hl [Hood' Hk']]].
    now rewrite (kth_true_unique is_ood i i' k Hood Hk Hood' Hk'). }
  exists i. split; [exact Hi|]. split; [exact Hood|]. split; [exact Hk|].
  split; [rewrite <- Hk; apply count_true_firstn_le|].
  split.
  { rewrite <- Hk. apply count_true_firstn_lt.
    apply Nat.lt_le_incl, nth_error_Some. rewrite Hood. discriminate. }
  split; [intros ps ->; apply Hsame; exact Hpart|].
  split; [intros cs ->; apply Hsame; exact Hcpus|].
  split; [intros ts ->; apply Hsame; exact Htime|].
  intros ns ->. apply Hsame. exact Hname.
Qed.

(** ** The submissions of a call *)




(** A job name that spells like the GPU flag is not read as the flag. *)
Example job_name_is_not_a_flag :
  let j := Job "--gres=gpu:1" "/work/a.out" (Some "cpu-short") None None None in
  sbatch_argv j = ["sbatch"; "--partition"; "cpu-short"; "--job-name"; "--gres=gpu:1"]
  /\ has_flag "--gres=gpu:1" (sbatch_argv j) = false.
Proof. split; reflexivity. Qed.

(** On a run: the first target is up to date, and the second is submitted
    with the partition of the second and the memory of the first. *)
Example second_target_gets_first_memory :
  let w := cluster "jnboehm91" (Completed 0 ("/work/b.out" ++ nl) "") acknowledged 0 0 in
  map (fun ev => match ev with Spawn c => argv c | _ => [] end)
      (submissions (snd (run (redo_ifchange_slurm w 1 ["/work/a.out"; "/work/b.out"]
                                (PyList [Some "cpu-a"; Some "cpu-b"]) (Scalar None)
                                (PyList [Some "1G"; Some "2G"]) (Scalar None) None))))
  = [["sbatch"; "--partition"; "cpu-b"; "--mem"; "1G"; "--job-name"; "redo00"]].
Proof. reflexivity. Qed.

Lemma redo_ood_list_spec_witness :
  exists bools,
    _redo_ood_list (cluster "jnboehm91" (Completed 0 ("/work/b.out" ++ nl) "") acknowledged 0 0)
      ["/work/a.out"; "/work/b.out"] []
    = (Ok bools, [Spawn (ood_command ["/work/a.out"; "/work/b.out"])])
    /\ length bools = 2
    /\ (0%Z = 0%Z ->
        forall i dep, nth_error ["/work/a.out"; "/work/b.out"] i = Some dep ->
          exists b, nth_error bools i = Some b
            /\ (b = true <-> In dep ["/work/b.out"; ""])).
Proof.
  apply (redo_ood_list_spec
           (cluster "jnboehm91" (Completed 0 ("/work/b.out" ++ nl) "") acknowledged 0 0)
           ["/work/a.out"; "/work/b.out"] []).
Defined.

(** ** The acknowledgement pattern *)

Lemma literal_some (lit s rest : string) :
  Re.literal lit s = Some rest <-> s = (lit ++ rest)%string.
Proof.
  revert s. induction lit as [|a lit IH]; intros s; cbn [Re.literal String.append].
  - split; [intros H; now injection H | intros ->; reflexivity].
  - destruct s as [|b s].
    + split; intros H; discriminate H.
    + destruct (Ascii.eqb_spec a b) as [->|Hne].
      * rewrite IH. split; [intros ->; reflexivity | intros H; now injection H].
      * split; [intros H; discriminate H | intros H; injection H as Hb _; congruence].
Qed.

Lemma digits_decompose (s : string) :
  exists rest, s = (Re.digits s ++ rest)%string
               /\ all_digits (Re.digits s) = true
               /\ no_leading_digit rest = true.
Proof.
  induction s as [|c s [rest [Hs [Hall Hrest]]]]; cbn [Re.digits].
  - exists "". repeat split.
  - destruct (Re.is_digit c) eqn:Hc.
    + exists rest. cbn [String.append all_digits]. rewrite Hc, Hall.
      split; [now rewrite <- Hs | split; [reflexivity | exact Hrest]].
    + exists (String c s). cbn [String.append no_leading_digit]. rewrite Hc.
      repeat split.
Qed.

Lemma digits_of_run (ds rest : string) :
  all_digits ds = true -> no_leading_digit rest = true ->
  Re.digits (ds ++ rest) = ds.
Proof.
  intros Hds Hrest. induction ds as [|c ds IH]; cbn [String.append].
  - destruct rest as [|c rest]; [reflexivity|]. cbn [Re.digits].
    cbn [no_leading_digit] in Hrest. apply negb_true_iff in Hrest. now rewrite Hrest.
  - cbn [all_digits] in Hds. apply andb_true_iff in Hds. destruct Hds as [Hc Hds].
    cbn [Re.digits]. rewrite Hc, (IH Hds). reflexivity.
Qed.

(** X1.  The job number read from an acknowledgement is [id] exactly when
    the text is [Submitted batch job ], then [id], a non-empty run of
    digits, then something that does not go on with a digit: the number is
    never empty, never cut short, and text before the phrase is not
    skipped. *)
Theorem match_submitted_spec (s id : string) :
  Re.match_submitted s = Some id <->
  id <> ""
  /\ all_digits id = true
  /\ exists rest, s = ("Submitted batch job " ++ id ++ rest)%string
                  /\ no_leading_digit rest = true.
Proof.
  unfold Re.match_submitted. split.
  - destruct (Re.literal "Submitted batch job " s) as [tail|] eqn:Hlit; [|discriminate].
    apply literal_some in Hlit.
    destruct (digits_decompose tail) as [rest [Htail [Hall Hrest]]].
    destruct (Re.digits tail) as [|c ds] eqn:Hd; [discriminate|].
    intros H. injection H as <-.
    split; [discriminate|]. split; [exact Hall|].
    exists rest. split; [|exact Hrest]. rewrite Hlit, Htail. reflexivity.
  - intros [Hne [Hall [rest [-> Hrest]]]].
    assert (Hlit : Re.literal "Submitted batch job "
                     ("Submitted batch job " ++ id ++ rest) = Some (id ++ rest)%string)
      by now apply literal_some.
    rewrite Hlit, (digits_of_run id rest Hall Hrest).
    destruct id; [contradiction | reflexivity].
Qed.

Lemma match_submitted_spec_witness :
  Re.match_submitted ("Submitted batch job 4711" ++ nl) = Some "4711" <->
  "4711" <> ""
  /\ all_digits "4711" = true
  /\ exists rest, ("Submitted batch job 4711" ++ nl)%string
                  = ("Submitted batch job " ++ "4711" ++ rest)%string
                  /\ no_leading_digit rest = true.
Proof. apply (match_submitted_spec ("Submitted batch job 4711" ++ nl) "4711"). Defined.

(** ** The lines of the oracle's output *)

Lemma split_nonempty (sep : ascii) (s : string) : split sep s <> [].
Proof.
  destruct s as [|c s]; cbn [split]; [discriminate|].
  destruct (Ascii.eqb c sep); [discriminate|].
  destruct (split sep s); discriminate.
Qed.

Lemma concat_cons_string (sep : string) (c : ascii) (piece : string) (pieces : list string) :
  String.concat sep (String c piece :: pieces)
  = String c (String.concat sep (piece :: pieces)).
Proof. destruct pieces; reflexivity. Qed.

(** [split] cuts a text at every separator and nowhere else: joining the
    pieces with the separator gives the text back, no piece contains the
    separator, and there is one piece more than there are separators (so an
    output that ends with a newline has an empty last line). *)
Lemma split_join (sep : ascii) (s : string) :
  join (String sep "") (split sep s) = s
  /\ Forall (fun piece => occurs sep piece = false) (split sep s)
  /\ length (split sep s)
     = S (length (filter (fun c => Ascii.eqb c sep) (list_ascii_of_string s))).
Proof.
  unfold join. induction s as [|c s [IHjoin [IHnone IHlen]]];
    cbn [split list_ascii_of_string filter].
  - repeat split. constructor; [reflexivity | constructor].
  - pose proof (split_nonempty sep s) as Hne.
    destruct (Ascii.eqb_spec c sep) as [->|Hc].
    + split; [|split].
      * destruct (split sep s) as [|piece pieces]; [contradiction|].
        change (String.concat (String sep "") ("" :: piece :: pieces))
          with (String sep (String.concat (String sep "") (piece :: pieces))).
        now rewrite IHjoin.
      * constructor; [reflexivity | exact IHnone].
      * cbn [length]. now rewrite IHlen.
    + destruct (split sep s) as [|piece pieces]; [contradiction|].
      split; [|split].
      * rewrite concat_cons_string. now rewrite IHjoin.
      * inversion IHnone as [|? ? Hpiece Hrest]; subst.
        constructor; [|exact Hrest]. cbn [occurs].
        destruct (Ascii.eqb_spec c sep); [contradiction | exact Hpiece].
      * exact IHlen.
Qed.

Lemma append_assoc (a b c : string) : ((a ++ b) ++ c = a ++ b ++ c)%string.
Proof. induction a as [|x a IH]; cbn [String.append]; [reflexivity | now rewrite IH]. Qed.

Lemma append_nil_r (a : string) : (a ++ "" = a)%string.
Proof. induction a as [|x a IH]; cbn [String.append]; [reflexivity | now rewrite IH]. Qed.

(** An element of a joined list stands in the joined text between
    separators. *)
Lemma concat_member (sep : ascii) (pieces : list string) (x : string) :
  In x pieces ->
  exists pre post,
    String.concat (String sep "") pieces = (pre ++ x ++ post)%string
    /\ (pre = "" \/ exists p, pre = (p ++ String sep "")%string)
    /\ (post = "" \/ exists q, post = (String sep "" ++ q)%string).
Proof.
  induction pieces as [|piece pieces IH]; intros Hin; [contradiction|].
  destruct pieces as [|piece' pieces].
  - destruct Hin as [->|[]]. exists "", "". cbn. rewrite append_nil_r.
    repeat split; now left.
  - change (String.concat (String sep "") (piece :: piece' :: pieces))
      with (piece ++ String sep "" ++ String.concat (String sep "") (piece' :: pieces))%string.
    destruct Hin as [->|Hin].
    + exists "". eexists. split; [reflexivity|]. split; [now left|].
      right. eexists. reflexivity.
    + destruct (IH Hin) as [pre [post [Heq [Hpre Hpost]]]].
      exists (piece ++ String sep "" ++ pre)%string, post. split; [|split].
      * rewrite Heq. now rewrite !append_assoc.
      * right. destruct Hpre as [->|[p ->]].
        -- exists piece. now rewrite append_nil_r.
        -- exists (piece ++ String sep "" ++ p)%string. now rewrite !append_assoc.
      * exact Hpost.
Qed.

Lemma split_head (sep : ascii) (x post : string) :
  occurs sep x = false ->
  post = "" \/ (exists q, post = (String sep "" ++ q)%string) ->
  exists pieces, split sep (x ++ post) = x :: pieces.
Proof.
  intros Hx Hpost. induction x as [|c x IH]; cbn [String.append].
  - destruct Hpost as [->|[q ->]]; cbn [split String.append].
    + now exists [].
    + rewrite Ascii.eqb_refl. eexists. reflexivity.
  - cbn [occurs] in Hx. apply orb_false_iff in Hx. destruct Hx as [Hc Hx].
    destruct (IH Hx) as [pieces Hsplit]. cbn [split]. rewrite Hc, Hsplit.
    eexists. reflexivity.
Qed.

Lemma split_after (sep : ascii) (p t x : string) :
  In x (split sep t) -> In x (tl (split sep (p ++ String sep t))).
Proof.
  intros Hin. induction p as [|c p IH]; cbn [String.append split].
  - rewrite Ascii.eqb_refl. exact Hin.
  - destruct (Ascii.eqb c sep).
    + cbn [tl]. destruct (split sep (p ++ String sep t)); [contradiction|].
      right. exact IH.
    + destruct (split sep (p ++ String sep t)); [contradiction|]. exact IH.
Qed.

Lemma in_split_iff (x out : string) :
  In x (split "010"%char out) <-> whole_line x out.
Proof.
  unfold whole_line, nl. split.
  - intros Hin. destruct (split_join "010"%char out) as [Hjoin [Hnone _]].
    split; [exact (proj1 (Forall_forall _ _) Hnone x Hin)|].
    destruct (concat_member "010"%char _ x Hin) as [pre [post [Heq H]]].
    exists pre, post. split; [|exact H]. unfold join in Hjoin. now rewrite <- Heq.
  - intros [Hx [pre [post [-> [Hpre Hpost]]]]].
    destruct (split_head "010"%char x post Hx Hpost) as [pieces Hsplit].
    destruct Hpre as [->|[p ->]].
    + cbn [String.append]. rewrite Hsplit. now left.
    + rewrite append_assoc. cbn [String.append].
      assert (Hin : In x (split "010"%char (x ++ post))) by (rewrite Hsplit; now left).
      apply (split_after "010"%char p) in Hin.
      destruct (split "010"%char (p ++ String "010"%char (x ++ post)));
        [contradiction | now right].
Qed.

(** X2.  When the oracle exits with 0, a target is reported stale exactly
    when its string is a whole line of the output: a line that only
    contains it, or starts with it, does not count. *)
Theorem stale_iff_whole_line (w : World) (deplist : list string) (tr : trace)
    (i : nat) (dep : string) :
  let ood_proc := run_proc w tr (ood_command deplist) in
  returncode ood_proc = 0%Z ->
  nth_error deplist i = Some dep ->
  exists bools,
    fst (_redo_ood_list w deplist tr) = Ok bools
    /\ (nth_error bools i = Some true <-> whole_line dep (stdout ood_proc)).
Proof.
  intros ood_proc Hrc Hi. rewrite redo_ood_list_run. fold ood_proc.
  eexists. split; [reflexivity|].
  unfold stale_flags. rewrite Hrc. cbn [Z.eqb].
  rewrite (map_nth_error _ _ _ Hi), <- in_split_iff, <- str_in_In.
  split; [intros H; now injection H | intros ->; reflexivity].
Qed.

Lemma stale_iff_whole_line_witness :
  exists bools,
    fst (_redo_ood_list
           (cluster "jnboehm91"
              (Completed 0 ("/work/b.out" ++ nl ++ "/work/a.out.tmp" ++ nl) "")
              acknowledged 0 0)
           ["/work/a.out"; "/work/b.out"] []) = Ok bools
    /\ (nth_error bools 0 = Some true <->
        whole_line "/work/a.out" ("/work/b.out" ++ nl ++ "/work/a.out.tmp" ++ nl)).
Proof.
  apply (stale_iff_whole_line
           (cluster "jnboehm91"
              (Completed 0 ("/work/b.out" ++ nl ++ "/work/a.out.tmp" ++ nl) "")
              acknowledged 0 0)
           ["/work/a.out"; "/work/b.out"] [] 0 "/work/a.out").
  - reflexivity.
  - reflexivity.
Defined.

(** ** The environment of a job *)

Lemma lookup_env_pop (key gone : string) (env : list (string * string)) :
  lookup key (env_pop gone env)
  = if String.eqb key gone then None else lookup key env.
Proof.
  induction env as [|[k v] env IH]; cbn [env_pop filter lookup fst].
  - now destruct (String.eqb key gone).
  - fold (env_pop gone env).
    destruct (String.eqb_spec k gone) as [->|Hk]; cbn [negb].
    + rewrite IH. destruct (String.eqb_spec key gone) as [->|Hkey].
      * reflexivity.
      * destruct (String.eqb_spec gone key); [congruence | reflexivity].
    + cbn [lookup]. rewrite IH.
      destruct (String.eqb_spec k key) as [->|Hkk]; [|reflexivity].
      destruct (String.eqb_spec key gone); [congruence | reflexivity].
Qed.

(** X3.  Every job is submitted with an environment in which the four
    variables of the redo session are unset and every other variable has
    the value it has for the dispatcher. *)
Theorem job_env_lookup (w : World) (j : job) (key : string) :
  exists env,
    cmd_env (sbatch_command w j) = Some env
    /\ lookup key env = if str_in key session_variables then None else getenv w key.
Proof.
  exists (job_env w). split; [reflexivity|].
  unfold job_env, getenv. rewrite !lookup_env_pop.
  unfold str_in, session_variables. cbn [existsb].
  destruct (String.eqb key "REDO_JS_FD"), (String.eqb key "MAKEFLAGS"),
    (String.eqb key "REDO_STATUS_FD"), (String.eqb key "REDO_DEP_FD"); reflexivity.
Qed.

(** ** More on the poller *)

Lemma poll_raise_run (w : World) (args : list string) (tr : trace) (n fuel : nat) :
  let c := Command args None None in
  (forall k, k < n ->
     returncode (run_proc w (polled k c tr) c) = 0%Z
     /\ stdout (run_proc w (polled k c tr) c) <> "") ->
  returncode (run_proc w (polled n c tr) c) <> 0%Z ->
  n < fuel ->
  poll fuel w args tr
  = (Raise (CalledProcessError (returncode (run_proc w (polled n c tr) c))),
     polled n c tr ++ [Spawn c]).
Proof.
  intros c. revert tr fuel. induction n as [|n IH]; intros tr fuel Hbusy Hrc Hfuel.
  - destruct fuel as [|fuel]; [lia|]. rewrite poll_unfold. cbn zeta. fold c.
    cbn [polled] in *. apply Z.eqb_neq in Hrc. rewrite Hrc. reflexivity.
  - destruct fuel as [|fuel]; [lia|].
    destruct (Hbusy 0) as [Hrc0 Hout0]; [lia|].
    rewrite poll_step_busy by assumption. cbn [polled].
    apply IH; [|assumption|lia]. intros k Hk. apply (Hbusy (S k)). lia.
Qed.

Lemma poll_ok_run (w : World) (args : list string) (tr : trace) (n fuel : nat) :
  let c := Command args None None in
  (forall k, k < n ->
     returncode (run_proc w (polled k c tr) c) = 0%Z
     /\ stdout (run_proc w (polled k c tr) c) <> "") ->
  returncode (run_proc w (polled n c tr) c) = 0%Z ->
  stdout (run_proc w (polled n c tr) c) = "" ->
  n < fuel ->
  poll fuel w args tr = (Ok tt, polled n c tr ++ [Spawn c]).
Proof.
  intros c. revert tr fuel. induction n as [|n IH]; intros tr fuel Hbusy Hrc Hidle Hfuel.
  - destruct fuel as [|fuel]; [lia|]. apply poll_step_idle; assumption.
  - destruct fuel as [|fuel]; [lia|].
    destruct (Hbusy 0) as [Hrc0 Hout0]; [lia|].
    rewrite poll_step_busy by assumption. cbn [polled].
    apply IH; [|assumption|assumption|lia]. intros k Hk. apply (Hbusy (S k)). lia.
Qed.

Lemma poll_busy_run (w : World) (args : list string) (tr : trace) (fuel : nat) :
  let c := Command args None None in
  (forall k, k < fuel ->
     returncode (run_proc w (polled k c tr) c) = 0%Z
     /\ stdout (run_proc w (polled k c tr) c) <> "") ->
  poll fuel w args tr = (OutOfFuel, polled fuel c tr).
Proof.
  intros c. revert tr. induction fuel as [|fuel IH]; intros tr Hbusy; [reflexivity|].
  destruct (Hbusy 0) as [Hrc0 Hout0]; [lia|].
  rewrite poll_step_busy by assumption. cbn [polled].
  apply IH. intros k Hk. apply (Hbusy (S k)). lia.
Qed.

(** The three ways the poller can end. *)
Lemma poll_cases (w : World) (fuel : nat) (args : list string) (tr : trace) :
  let c := Command args None None in
  let busy k := returncode (run_proc w (polled k c tr) c) = 0%Z
                /\ stdout (run_proc w (polled k c tr) c) <> "" in
  (exists n, n < fuel /\ (forall k, k < n -> busy k)
             /\ returncode (run_proc w (polled n c tr) c) = 0%Z
             /\ stdout (run_proc w (polled n c tr) c) = "")
  \/ (exists n, n < fuel /\ (forall k, k < n -> busy k)
                /\ returncode (run_proc w (polled n c tr) c) <> 0%Z)
  \/ (forall k, k < fuel -> busy k).
Proof.
  intros c busy. induction fuel as [|fuel IH].
  - right. right. intros k Hk. lia.
  - destruct IH as [[n [Hn H]]|[[n [Hn H]]|Hall]].
    + left. exists n. split; [lia | exact H].
    + right. left. exists n. split; [lia | exact H].
    + destruct (Z.eq_dec (returncode (run_proc w (polled fuel c tr) c)) 0) as [Hrc|Hrc].
      * destruct (string_dec (stdout (run_proc w (polled fuel c tr) c)) "") as [Hout|Hout].
        -- left. exists fuel. split; [lia|]. split; [exact Hall|]. split; assumption.
        -- right. right. intros k Hk.
           destruct (Nat.eq_dec k fuel) as [->|Hne]; [split; assumption|].
           apply Hall. lia.
      * right. left. exists fuel. split; [lia|]. split; [exact Hall | exact Hrc].
Qed.

(** X4.  When the scheduler answers the first [n] status queries with a
    non-empty list and the next query exits with a status other than 0, the
    poller ends with [CalledProcessError] of that status right after that
    query, without sleeping again. *)
Theorem poll_fails_with_query (w : World) (args : list string) (tr : trace)
    (n fuel : nat) :
  let c := Command args None None in
  (forall k, k < n ->
     returncode (run_proc w (polled k c tr) c) = 0%Z
     /\ stdout (run_proc w (polled k c tr) c) <> "") ->
  returncode (run_proc w (polled n c tr) c) <> 0%Z ->
  n < fuel ->
  poll fuel w args tr
  = (Raise (CalledProcessError (returncode (run_proc w (polled n c tr) c))),
     polled n c tr ++ [Spawn c]).
Proof. intros c Hbusy Hrc Hfuel. now apply poll_raise_run. Qed.

Lemma poll_fails_with_query_witness :
  poll 3 (unreachable_scheduler "jnboehm91" both_stale 1)
       (squeue_argv "jnboehm91" "1" "redo00") []
  = (Raise (CalledProcessError 1),
     polled 1 (Command (squeue_argv "jnboehm91" "1" "redo00") None None) []
     ++ [Spawn (Command (squeue_argv "jnboehm91" "1" "redo00") None None)]).
Proof.
  apply (poll_fails_with_query (unreachable_scheduler "jnboehm91" both_stale 1)
           (squeue_argv "jnboehm91" "1" "redo00") [] 1 3).
  - intros k Hk. destruct k as [|k]; [|lia]. split; [reflexivity | discriminate].
  - discriminate.
  - lia.
Defined.

(** X5.  The poller returns normally only on an empty answer: if it
    returned, then its last status query exited with 0 and printed nothing,
    and every query before it exited with 0 and listed jobs and was
    followed by a sleep. *)
Theorem poll_returns_only_when_idle (w : World) (fuel : nat) (args : list string)
    (tr tr' : trace) :
  let c := Command args None None in
  poll fuel w args tr = (Ok tt, tr') ->
  exists n,
    n < fuel
    /\ tr' = polled n c tr ++ [Spawn c]
    /\ returncode (run_proc w (polled n c tr) c) = 0%Z
    /\ stdout (run_proc w (polled n c tr) c) = ""
    /\ forall k, k < n ->
         returncode (run_proc w (polled k c tr) c) = 0%Z
         /\ stdout (run_proc w (polled k c tr) c) <> "".
Proof.
  intros c Hrun.
  destruct (poll_cases w fuel args tr) as [[n [Hn [Hbusy [Hrc Hout]]]]|[[n [Hn [Hbusy Hrc]]]|Hall]].
  - exists n. rewrite (poll_ok_run w args tr n fuel Hbusy Hrc Hout Hn) in Hrun.
    injection Hrun as <-.
    split; [exact Hn|]. split; [reflexivity|]. split; [exact Hrc|].
    split; [exact Hout | exact Hbusy].
  - rewrite (poll_raise_run w args tr n fuel Hbusy Hrc Hn) in Hrun. discriminate Hrun.
  - rewrite (poll_busy_run w args tr fuel Hall) in Hrun. discriminate Hrun.
Qed.

Lemma poll_returns_only_when_idle_witness :
  exists n,
    n < 4
    /\ polled 2 (Command (squeue_argv "jnboehm91" "1" "redo00") None None) []
       ++ [Spawn (Command (squeue_argv "jnboehm91" "1" "redo00") None None)]
       = polled n (Command (squeue_argv "jnboehm91" "1" "redo00") None None) []
         ++ [Spawn (Command (squeue_argv "jnboehm91" "1" "redo00") None None)]
    /\ returncode (run_proc (cluster "jnboehm91" both_stale acknowledged 2 0)
                     (polled n (Command (squeue_argv "jnboehm91" "1" "redo00") None None) [])
                     (Command (squeue_argv "jnboehm91" "1" "redo00") None None)) = 0%Z
    /\ stdout (run_proc (cluster "jnboehm91" both_stale acknowledged 2 0)
                 (polled n (Command (squeue_argv "jnboehm91" "1" "redo00") None None) [])
                 (Command (squeue_argv "jnboehm91" "1" "redo00") None None)) = ""
    /\ forall k, k < n ->
         returncode (run_proc (cluster "jnboehm91" both_stale acknowledged 2 0)
                       (polled k (Command (squeue_argv "jnboehm91" "1" "redo00") None None) [])
                       (Command (squeue_argv "jnboehm91" "1" "redo00") None None)) = 0%Z
         /\ stdout (run_proc (cluster "jnboehm91" both_stale acknowledged 2 0)
                      (polled k (Command (squeue_argv "jnboehm91" "1" "redo00") None None) [])
                      (Command (squeue_argv "jnboehm91" "1" "redo00") None None)) <> "".
Proof.
  apply (poll_returns_only_when_idle (cluster "jnboehm91" both_stale acknowledged 2 0) 4
           (squeue_argv "jnboehm91" "1" "redo00") []).
  reflexivity.
Defined.

Lemma poll_effects_any (w : World) (fuel : nat) (args : list string) (tr : trace) :
  exists added, snd (poll fuel w args tr) = tr ++ added.
Proof.
  revert tr. induction fuel as [|fuel IH]; intros tr.
  - exists []. cbn. now rewrite app_nil_r.
  - rewrite poll_unfold. cbn zeta.
    destruct (returncode _ =? 0)%Z; [|eexists; reflexivity].
    destruct (0 <? String.length _)%nat; [|eexists; reflexivity].
    destruct (IH (tr ++ [Spawn (Command args None None); Sleep])) as [added Hadded].
    exists ([Spawn (Command args None None); Sleep] ++ added).
    rewrite Hadded. now rewrite app_assoc.
Qed.

(** X6.  The poller has no timeout: however many status queries are
    answered with a non-empty list, after that many queries and sleeps it
    has neither returned nor failed. *)
Theorem poll_never_gives_up (w : World) (args : list string) (tr : trace) (n : nat) :
  let c := Command args None None in
  (forall k, k < n ->
     returncode (run_proc w (polled k c tr) c) = 0%Z
     /\ stdout (run_proc w (polled k c tr) c) <> "") ->
  poll n w args tr = (OutOfFuel, polled n c tr)
  /\ spawns (polled n c tr) = spawns tr + n
  /\ (forall fuel, n <= fuel -> exists added,
        snd (poll fuel w args tr) = polled n c tr ++ added).
Proof.
  intros c Hbusy. split; [now apply poll_busy_run|]. split; [apply spawns_polled|].
  intros fuel Hfuel. revert tr Hbusy fuel Hfuel.
  induction n as [|n IH]; intros tr Hbusy fuel Hfuel.
  - destruct (poll_effects_any w fuel args tr) as [added Hadded]. exists added. exact Hadded.
  - destruct fuel as [|fuel]; [lia|].
    destruct (Hbusy 0) as [Hrc0 Hout0]; [lia|].
    rewrite poll_step_busy by assumption. cbn [polled].
    apply IH; [|lia]. intros k Hk. apply (Hbusy (S k)). lia.
Qed.

Lemma poll_never_gives_up_witness :
  poll 3 (cluster "jnboehm91" both_stale acknowledged 5 0)
       (squeue_argv "jnboehm91" "1" "redo00") []
  = (OutOfFuel,
     polled 3 (Command (squeue_argv "jnboehm91" "1" "redo00") None None) []).
Proof.
  refine (proj1 (poll_never_gives_up (cluster "jnboehm91" both_stale acknowledged 5 0)
                   (squeue_argv "jnboehm91" "1" "redo00") [] 3 _)).
  intros k Hk.
  destruct k as [|[|[|k]]]; [split; [reflexivity | discriminate] ..| lia].
Defined.

(** ** The order of a remote dispatch *)

Lemma submit_not_out_of_fuel (w : World) (j : job) (tr : trace) :
  fst (submit w j tr) <> OutOfFuel.
Proof.
  destruct (submit_run w j tr) as [_ Hres]. cbn zeta in Hres.
  destruct (submission_error _) as [e|].
  - rewrite Hres. discriminate.
  - destruct Hres as [id [_ ->]]. discriminate.
Qed.

(** The launching loop submits a prefix of its jobs, in order; all of them
    when it returns. *)
Lemma launch_run (w : World) (jobs : list job) (job_ids : list string) (tr : trace) :
  exists m,
    m <= length jobs
    /\ snd (launch w jobs job_ids tr) = tr ++ flat_map (submit_events w) (firstn m jobs)
    /\ (forall ids, fst (launch w jobs job_ids tr) = Ok ids ->
          m = length jobs
          /\ exists new, ids = job_ids ++ new /\ length new = length jobs)
    /\ (forall e, fst (launch w jobs job_ids tr) = Raise e -> 0 < m)
    /\ fst (launch w jobs job_ids tr) <> OutOfFuel.
Proof.
  revert job_ids tr. induction jobs as [|j jobs IH]; intros job_ids tr; cbn [launch].
  - exists 0. cbn. rewrite app_nil_r. split; [lia|]. split; [reflexivity|].
    split; [|split; [intros e H; discriminate H | discriminate]].
    intros ids H. injection H as <-. split; [reflexivity|].
    exists []. now rewrite app_nil_r.
  - destruct (submit_run w j tr) as [Htr _].
    pose proof (submit_not_out_of_fuel w j tr) as Hfuel.
    unfold bind. destruct (submit w j tr) as [[id|e|] tr1]; cbn [fst snd] in Htr, Hfuel;
      subst tr1.
    + destruct (IH (job_ids ++ [id]) (tr ++ [MkParent (j_dep j); Spawn (sbatch_command w j)]))
        as [m [Hm [Hsnd [Hok [Hraise Hoof]]]]].
      exists (S m). cbn [length firstn flat_map]. split; [lia|].
      split; [rewrite Hsnd; unfold submit_events at 2; now rewrite <- app_assoc|].
      split; [|split; [intros e H; lia | exact Hoof]].
      intros ids Hids. destruct (Hok ids Hids) as [-> [new [-> Hnew]]].
      split; [reflexivity|]. exists (id :: new).
      split; [now rewrite <- app_assoc | cbn [length]; now rewrite Hnew].
    + exists 1. cbn [length firstn flat_map fst snd]. rewrite app_nil_r. split; [lia|]. split; [reflexivity|].
      split; [intros ids H; discriminate H|]. split; [intros e' _; lia | discriminate].
    + contradiction.
Qed.

Lemma poll_events (w : World) (fuel : nat) (args : list string) (tr : trace) :
  hd "" args = "squeue" ->
  exists polls,
    snd (poll fuel w args tr) = tr ++ polls /\ forallb is_poll_event polls = true.
Proof.
  intros Hargs. revert tr. induction fuel as [|fuel IH]; intros tr.
  - exists []. cbn. now rewrite app_nil_r.
  - rewrite poll_unfold. cbn zeta.
    set (c := Command args None None).
    assert (Hc : is_poll_event (Spawn c) = true).
    { cbn [is_poll_event]. change (program c) with (hd "" args). now rewrite Hargs. }
    destruct (returncode _ =? 0)%Z.
    + destruct (0 <? String.length _)%nat.
      * destruct (IH (tr ++ [Spawn c; Sleep])) as [polls [Hsnd Hall]].
        exists ([Spawn c; Sleep] ++ polls). split; [rewrite Hsnd; now rewrite app_assoc|].
        cbn [app forallb]. now rewrite Hc, Hall.
      * exists [Spawn c]. split; [reflexivity|]. cbn [forallb]. now rewrite Hc.
    + exists [Spawn c]. split; [reflexivity|]. cbn [forallb]. now rewrite Hc.
Qed.

(** X8.  A remote dispatch whose targets lie in the workspace proceeds in
    this order: one oracle query; submissions of a prefix of the jobs, in
    order; status queries and sleeps, only after every job was submitted;
    and, only when the poller returned, one invocation of the build tool on
    all the original targets, stale or not.  When the call does not return
    normally the build tool is not invoked. *)
Theorem remote_dispatch_order (w : World) (fuel : nat) (deplist : list string)
    (partition : arg (option string)) (n_cpus : arg (option Z))
    (mem time_str : arg (option string)) (name : option (arg string))
    (workdir : string) :
  getenv w "USER" = Some "jnboehm91" ->
  getenv w "WORK" = Some workdir ->
  forallb (resolves_under w workdir) deplist = true ->
  let call := run (redo_ifchange_slurm w fuel deplist partition n_cpus mem time_str name) in
  let is_ood := stale_flags (run_proc w [] (ood_command deplist)) deplist in
  let jobs := remote_jobs deplist is_ood partition n_cpus mem time_str name in
  exists m polls recon,
    snd call = [Spawn (ood_command deplist)]
               ++ flat_map (submit_events w) (firstn m jobs) ++ polls ++ recon
    /\ m <= length jobs
    /\ forallb is_poll_event polls = true
    /\ (m < length jobs -> polls = [])
    /\ ((fst call = Ok tt /\ m = length jobs
         /\ recon = [Spawn (Command ("redo-ifchange" :: deplist) None None)])
        \/ (fst call <> Ok tt /\ recon = [])).
Proof.
  intros Huser Hwork Hall call is_ood jobs.
  destruct call as [res tr'] eqn:Hcall. subst call. cbn [fst snd].
  unfold run, redo_ifchange_slurm in Hcall. rewrite Huser in Hcall. cbn [user_is] in Hcall.
  change ("jnboehm91" =? "nboehm") with false in Hcall.
  change ("jnboehm91" =? "jnboehm91") with true in Hcall. cbv iota in Hcall.
  rewrite (dispatch_remote_run w fuel "jnboehm91" deplist partition n_cpus mem
             time_str name workdir [] Hwork Hall) in Hcall.
  fold is_ood in Hcall. fold jobs in Hcall. cbn [app] in Hcall.
  destruct (launch_run w jobs [] [Spawn (ood_command deplist)])
    as [m [Hm [Hsnd [Hok [Hraise Hoof]]]]].
  unfold bind in Hcall.
  destruct (launch w jobs [] [Spawn (ood_command deplist)]) as [[ids|e|] tr1];
    cbn [fst snd] in *; subst tr1.
  - destruct (Hok ids eq_refl) as [-> _].
    set (args := squeue_argv _ _ _) in Hcall.
    destruct (poll_events w fuel args
                ([Spawn (ood_command deplist)]
                 ++ flat_map (submit_events w) (firstn (length jobs) jobs)))
      as [polls [Hpolls Hall_polls]]; [reflexivity|].
    destruct (poll fuel w args _) as [[[]|e|] tr2]; cbn [snd] in Hpolls; subst tr2.
    + unfold redo_ifchange, redo, subprocess_call, bind, spawn, ret in Hcall.
      cbn [app] in Hcall. injection Hcall as <- <-.
      exists (length jobs), polls, [Spawn (Command ("redo-ifchange" :: deplist) None None)].
      split; [cbn [app]; now rewrite <- ?app_assoc|]. split; [lia|].
      split; [exact Hall_polls|]. split; [lia|]. left. repeat split.
    + injection Hcall as <- <-. exists (length jobs), polls, [].
      split; [cbn [app]; rewrite !app_nil_r; now rewrite <- ?app_assoc|]. split; [lia|].
      split; [exact Hall_polls|]. split; [lia|]. right. split; [discriminate | reflexivity].
    + injection Hcall as <- <-. exists (length jobs), polls, [].
      split; [cbn [app]; rewrite !app_nil_r; now rewrite <- ?app_assoc|]. split; [lia|].
      split; [exact Hall_polls|]. split; [lia|]. right. split; [discriminate | reflexivity].
  - injection Hcall as <- <-. exists m, [], [].
    split; [now rewrite !app_nil_r|]. split; [exact Hm|]. split; [reflexivity|].
    split; [reflexivity|]. right. split; [discriminate | reflexivity].
  - contradiction.
Qed.

Lemma remote_dispatch_order_witness :
  exists m polls recon,
    snd (run (redo_ifchange_slurm (cluster "jnboehm91" both_stale second_refused 0 0) 3
                ["/work/a.out"; "/work/b.out"] (Scalar (Some "cpu-short"))
                (Scalar None) (Scalar None) (Scalar None) None))
    = [Spawn (ood_command ["/work/a.out"; "/work/b.out"])]
      ++ flat_map (submit_events (cluster "jnboehm91" both_stale second_refused 0 0))
           (firstn m
              (remote_jobs ["/work/a.out"; "/work/b.out"] [true; true]
                 (Scalar (Some "cpu-short")) (Scalar None) (Scalar None) (Scalar None) None))
      ++ polls ++ recon
    /\ m <= 2
    /\ forallb is_poll_event polls = true
    /\ (m < 2 -> polls = [])
    /\ ((fst (run (redo_ifchange_slurm (cluster "jnboehm91" both_stale second_refused 0 0) 3
                     ["/work/a.out"; "/work/b.out"] (Scalar (Some "cpu-short"))
                     (Scalar None) (Scalar None) (Scalar None) None)) = Ok tt
         /\ m = 2
         /\ recon = [Spawn (Command ["redo-ifchange"; "/work/a.out"; "/work/b.out"]
                              None None)])
        \/ (fst (run (redo_ifchange_slurm (cluster "jnboehm91" both_stale second_refused 0 0) 3
                        ["/work/a.out"; "/work/b.out"] (Scalar (Some "cpu-short"))
                        (Scalar None) (Scalar None) (Scalar None) None)) <> Ok tt
            /\ recon = [])).
Proof.
  apply (remote_dispatch_order (cluster "jnboehm91" both_stale second_refused 0 0) 3
           ["/work/a.out"; "/work/b.out"] (Scalar (Some "cpu-short"))
           (Scalar None) (Scalar None) (Scalar None) None "/work");
    reflexivity.
Defined.

Lemma reply_first (w : World) (tr : trace) (j : job) (jobs : list job) :
  reply w tr (j :: jobs) 0 j = run_proc w (tr ++ [MkParent (j_dep j)]) (sbatch_command w j).
Proof. reflexivity. Qed.

Lemma reply_next (w : World) (tr : trace) (j j' : job) (jobs : list job) (k : nat) :
  reply w tr (j :: jobs) (S k) j' = reply w (tr ++ submit_events w j) jobs k j'.
Proof.
  unfold reply. cbn [firstn flat_map]. now rewrite <- !app_assoc.
Qed.

Lemma submission_error_none (p : completed) :
  submission_error p = None ->
  returncode p = 0%Z /\ exists id, Re.match_submitted (stdout p) = Some id.
Proof.
  unfold submission_error. destruct (Z.eqb_spec (returncode p) 0) as [Hrc|Hrc]; cbn [negb].
  - destruct (Re.match_submitted (stdout p)) as [id|]; [|discriminate].
    intros _. split; [exact Hrc | now exists id].
  - discriminate.
Qed.

(** X7.  The launching loop submits its jobs one after the other in the
    order of the list, each after creating the directory of its target.
    When it returns, every job was submitted and acknowledged, and the job
    numbers it adds are, in order, the numbers read from the
    acknowledgements.  When it ends with an exception, the submission that
    was refused is the last event: every job before it was acknowledged,
    the exception is the one of that refusal, and no later job was
    submitted. *)
Theorem launch_in_order (w : World) (jobs : list job) (job_ids : list string) (tr : trace) :
  exists m,
    m <= length jobs
    /\ snd (launch w jobs job_ids tr) = tr ++ flat_map (submit_events w) (firstn m jobs)
    /\ (forall ids, fst (launch w jobs job_ids tr) = Ok ids ->
          m = length jobs
          /\ exists new,
               ids = job_ids ++ new
               /\ length new = length jobs
               /\ forall k j, nth_error jobs k = Some j ->
                    returncode (reply w tr jobs k j) = 0%Z
                    /\ exists id, nth_error new k = Some id
                                  /\ Re.match_submitted (stdout (reply w tr jobs k j)) = Some id)
    /\ (forall e, fst (launch w jobs job_ids tr) = Raise e ->
          exists k j,
            m = S k
            /\ nth_error jobs k = Some j
            /\ submission_error (reply w tr jobs k j) = Some e
            /\ forall k' j', k' < k -> nth_error jobs k' = Some j' ->
                 submission_error (reply w tr jobs k' j') = None).
Proof.
  revert job_ids tr. induction jobs as [|j jobs IH]; intros job_ids tr; cbn [launch].
  - exists 0. cbn [length firstn flat_map ret fst snd]. rewrite app_nil_r.
    split; [lia|]. split; [reflexivity|]. split; [|intros e H; discriminate H].
    intros ids H. injection H as <-. split; [reflexivity|].
    exists []. rewrite app_nil_r. split; [reflexivity|]. split; [reflexivity|].
    intros k j' Hk. destruct k; discriminate Hk.
  - destruct (submit_run w j tr) as [Htr Hres]. cbn zeta in Hres.
    rewrite <- reply_first with (jobs := jobs) in Hres.
    unfold bind. destruct (submit w j tr) as [r tr1]. cbn [fst snd] in Htr, Hres. subst tr1.
    destruct (submission_error (reply w tr (j :: jobs) 0 j)) as [e0|] eqn:Herr.
    + subst r. exists 1. cbn [length firstn flat_map fst snd]. rewrite app_nil_r.
      split; [lia|]. split; [reflexivity|]. split; [intros ids H; discriminate H|].
      intros e H. injection H as <-. exists 0, j.
      split; [reflexivity|]. split; [reflexivity|]. split; [exact Herr|].
      intros k' j' Hk'. lia.
    + destruct Hres as [id [Hid ->]].
      destruct (submission_error_none _ Herr) as [Hrc0 _].
      destruct (IH (job_ids ++ [id]) (tr ++ [MkParent (j_dep j); Spawn (sbatch_command w j)]))
        as [m [Hm [Hsnd [Hok Hraise]]]].
      exists (S m). cbn [length firstn flat_map]. split; [lia|].
      split; [rewrite Hsnd; unfold submit_events at 2; now rewrite <- app_assoc|].
      split.
      * intros ids Hids. destruct (Hok ids Hids) as [-> [new [-> [Hnew Hreplies]]]].
        split; [reflexivity|]. exists (id :: new).
        split; [now rewrite <- app_assoc|]. split; [cbn [length]; now rewrite Hnew|].
        intros k j' Hk. destruct k as [|k]; cbn [nth_error] in Hk |- *.
        -- injection Hk as <-. split; [exact Hrc0|]. exists id. split; [reflexivity | exact Hid].
        -- rewrite reply_next. apply Hreplies. exact Hk.
      * intros e He. destruct (Hraise e He) as [k [j' [-> [Hj' [Hrefused Hbefore]]]]].
        exists (S k), j'. split; [reflexivity|]. split; [exact Hj'|].
        split; [rewrite reply_next; exact Hrefused|].
        intros k' j'' Hk' Hj''. destruct k' as [|k']; cbn [nth_error] in Hj''.
        -- injection Hj'' as <-. exact Herr.
        -- rewrite reply_next. apply Hbefore; [lia | exact Hj''].
Qed.

(** ** What the staleness filter lets through *)

Lemma filter_by_all_false {A : Type} (l : list A) (bools : list bool) :
  (forall b, In b bools -> b = false) -> filter_by l bools = [].
Proof.
  revert bools. induction l as [|a l IH]; intros [|b bools] Hall; try reflexivity.
  rewrite filter_by_cons. rewrite (Hall b (or_introl eq_refl)).
  apply IH. intros b' Hb'. apply Hall. now right.
Qed.

Lemma filter_by_all_true {A : Type} (l : list A) (n : nat) :
  filter_by l (repeat true n) = firstn n l.
Proof.
  revert n. induction l as [|a l IH]; intros [|n]; try reflexivity.
  cbn [repeat firstn]. rewrite filter_by_cons. now rewrite IH.
Qed.

Lemma map_const_repeat {A B : Type} (b : B) (l : list A) :
  map (fun _ => b) l = repeat b (length l).
Proof. induction l as [|a l IH]; cbn; [reflexivity | now rewrite IH]. Qed.

Lemma zip6_nil_deps (names : list string) (partition : list (option string))
    (n_cpus : list (option Z)) (mem time_str : list (option string)) :
  zip6 names [] partition n_cpus mem time_str = [].
Proof. unfold zip6. cbn [combine]. now destruct names. Qed.

(** X9.  When the oracle exits with 0 and names none of the targets, a
    remote dispatch submits nothing and creates no directory, yet it still
    asks the scheduler once, with empty lists of job numbers and job names,
    before it goes on. *)
Theorem nothing_stale_nothing_submitted (w : World) (fuel : nat) (deplist : list string)
    (partition : arg (option string)) (n_cpus : arg (option Z))
    (mem time_str : arg (option string)) (name : option (arg string))
    (workdir : string) :
  getenv w "USER" = Some "jnboehm91" ->
  getenv w "WORK" = Some workdir ->
  forallb (resolves_under w workdir) deplist = true ->
  returncode (run_proc w [] (ood_command deplist)) = 0%Z ->
  (forall dep, In dep deplist ->
     ~ In dep (split "010"%char (stdout (run_proc w [] (ood_command deplist))))) ->
  exists rest,
    snd (run (redo_ifchange_slurm w (S fuel) deplist partition n_cpus mem time_str name))
    = [ Spawn (ood_command deplist);
        Spawn (Command (squeue_argv "jnboehm91" "" "") None None) ] ++ rest
    /\ forallb (fun ev => match ev with MkParent _ => false | _ => true end) rest = true
    /\ submissions rest = [].
Proof.
  intros Huser Hwork Hall Hrc Hnone.
  unfold run, redo_ifchange_slurm. rewrite Huser. cbn [user_is].
  change ("jnboehm91" =? "nboehm") with false.
  change ("jnboehm91" =? "jnboehm91") with true. cbv iota.
  rewrite (dispatch_remote_run w (S fuel) "jnboehm91" deplist partition n_cpus mem
             time_str name workdir [] Hwork Hall).
  set (is_ood := stale_flags _ _).
  assert (Hfalse : forall b, In b is_ood -> b = false).
  { intros b Hb. subst is_ood. unfold stale_flags in Hb. rewrite Hrc in Hb. cbn [Z.eqb] in Hb.
    apply in_map_iff in Hb. destruct Hb as [dep [<- Hdep]].
    destruct (str_in dep _) eqn:E; [|reflexivity].
    apply str_in_In in E. now apply Hnone in E. }
  assert (Hjobs : remote_jobs deplist is_ood partition n_cpus mem time_str name = []).
  { unfold remote_jobs, slurm_jobs. rewrite (filter_by_all_false deplist is_ood Hfalse).
    apply zip6_nil_deps. }
  assert (Hnames : job_names (option_map (fun l => _redo_filter_list l is_ood) name)
                     (length (filter_by deplist is_ood)) = []).
  { rewrite (filter_by_all_false deplist is_ood Hfalse).
    destruct name as [[s|l]|]; cbn [option_map _redo_filter_list job_names];
      [reflexivity | now apply filter_by_all_false | reflexivity]. }
  rewrite Hjobs, Hnames. cbn [app launch]. unfold bind at 2. unfold ret at 1.
  change (join "," []) with "".
  set (c := Command (squeue_argv "jnboehm91" "" "") None None).
  unfold bind at 1. rewrite poll_unfold. cbn zeta. fold c.
  destruct (returncode (run_proc w [Spawn (ood_command deplist)] c) =? 0)%Z.
  - destruct (0 <? String.length _)%nat.
    + destruct (poll_effects w fuel (squeue_argv "jnboehm91" "" "")
                  ([Spawn (ood_command deplist)] ++ [Spawn c; Sleep]))
        as [added [Hadded [Hsub _]]]; [discriminate|].
      destruct (poll_events w fuel (squeue_argv "jnboehm91" "" "")
                  ([Spawn (ood_command deplist)] ++ [Spawn c; Sleep]))
        as [polls [Hpolls Hpoll_events]]; [reflexivity|].
      rewrite Hadded in Hpolls. apply app_inv_head in Hpolls. subst polls.
      assert (Hnomk : forallb (fun ev => match ev with MkParent _ => false | _ => true end)
                        added = true).
      { apply forallb_forall. intros ev Hev.
        pose proof (proj1 (forallb_forall _ _) Hpoll_events ev Hev) as H.
        destruct ev; [reflexivity | discriminate H | reflexivity]. }
      destruct (poll fuel w _ _) as [[[]|e|] tr2]; cbn [snd] in Hadded; subst tr2.
      * unfold redo_ifchange, redo, subprocess_call, bind, spawn, ret. cbn [snd].
        exists ([Sleep] ++ added ++ [Spawn (Command (["redo-ifchange"] ++ deplist) None None)]).
        split; [cbn [app]; now rewrite <- ?app_assoc|]. split.
        -- cbn [app forallb]. rewrite forallb_app, Hnomk. reflexivity.
        -- rewrite !submissions_app, Hsub. reflexivity.
      * cbn [snd]. exists ([Sleep] ++ added). split; [reflexivity|]. split.
        -- cbn [app forallb]. exact Hnomk.
        -- rewrite !submissions_app, Hsub. reflexivity.
      * cbn [snd]. exists ([Sleep] ++ added). split; [reflexivity|]. split.
        -- cbn [app forallb]. exact Hnomk.
        -- rewrite !submissions_app, Hsub. reflexivity.
    + unfold redo_ifchange, redo, subprocess_call, bind, spawn, ret. cbn [snd].
      exists [Spawn (Command (["redo-ifchange"] ++ deplist) None None)].
      repeat split.
  - cbn [snd]. exists []. repeat split.
Qed.

Lemma nothing_stale_nothing_submitted_witness :
  exists rest,
    snd (run (redo_ifchange_slurm
                (cluster "jnboehm91" (Completed 0 "" "") acknowledged 0 0) 1
                ["/work/a.out"; "/work/b.out"] (Scalar (Some "gpu-v100"))
                (Scalar None) (Scalar None) (Scalar None) None))
    = [ Spawn (ood_command ["/work/a.out"; "/work/b.out"]);
        Spawn (Command (squeue_argv "jnboehm91" "" "") None None) ] ++ rest
    /\ forallb (fun ev => match ev with MkParent _ => false | _ => true end) rest = true
    /\ submissions rest = [].
Proof.
  apply (nothing_stale_nothing_submitted
           (cluster "jnboehm91" (Completed 0 "" "") acknowledged 0 0) 0
           ["/work/a.out"; "/work/b.out"] (Scalar (Some "gpu-v100"))
           (Scalar None) (Scalar None) (Scalar None) None "/work").
  - reflexivity.
  - reflexivity.
  - reflexivity.
  - reflexivity.
  - intros dep Hdep Hin. simpl in Hdep, Hin.
    destruct Hin as [<-|[]]. destruct Hdep as [H|[H|[]]]; discriminate H.
Defined.

Lemma filter_by_everything {A : Type} (l : list A) (n : nat) :
  length l = n -> filter_by l (repeat true n) = l.
Proof. intros <-. rewrite filter_by_all_true. apply firstn_all. Qed.

Lemma redo_filter_list_everything {A : Type} (x : arg A) (n : nat) :
  fits x n -> _redo_filter_list x (repeat true n) = x.
Proof.
  destruct x as [a|l]; cbn [fits _redo_filter_list]; [reflexivity|].
  intros Hl. now rewrite filter_by_everything.
Qed.

(** When the oracle fails and the filtered lists have one value per
    target, the filter changes nothing. *)
Lemma remote_jobs_unfiltered (p : completed) (deplist : list string)
    (partition : arg (option string)) (n_cpus : arg (option Z))
    (mem time_str : arg (option string)) (name : option (arg string)) :
  returncode p <> 0%Z ->
  fits partition (length deplist) ->
  fits n_cpus (length deplist) ->
  fits time_str (length deplist) ->
  names_fit name (length deplist) ->
  remote_jobs deplist (stale_flags p deplist) partition n_cpus mem time_str name
  = slurm_jobs deplist partition n_cpus mem time_str name.
Proof.
  intros Hrc Hpart Hcpus Htime Hname.
  unfold stale_flags. apply Z.eqb_neq in Hrc. rewrite Hrc, map_const_repeat.
  unfold remote_jobs.
  rewrite (filter_by_everything deplist _ eq_refl).
  rewrite !redo_filter_list_everything by assumption.
  destruct name as [x|]; cbn [option_map]; [|reflexivity].
  cbn [names_fit] in Hname. now rewrite redo_filter_list_everything.
Qed.

Lemma map_fst_combine {A B : Type} (l : list A) (l' : list B) :
  map fst (combine l l') = firstn (length l') l.
Proof.
  revert l'. induction l as [|a l IH]; intros [|b l']; try reflexivity.
  cbn [combine map fst length firstn]. now rewrite IH.
Qed.

Lemma map_snd_combine {A B : Type} (l : list A) (l' : list B) :
  map snd (combine l l') = firstn (length l) l'.
Proof.
  revert l'. induction l as [|a l IH]; intros [|b l']; try reflexivity.
  cbn [combine map snd length firstn]. now rewrite IH.
Qed.

(** The targets of the jobs are the first targets of the list. *)
Lemma map_dep_zip6 (names deplist : list string) (partition : list (option string))
    (n_cpus : list (option Z)) (mem time_str : list (option string)) :
  map j_dep (zip6 names deplist partition n_cpus mem time_str)
  = firstn (length (zip6 names deplist partition n_cpus mem time_str)) deplist.
Proof.
  rewrite length_zip6. unfold zip6. rewrite map_map.
  set (rest := combine partition _).
  assert (Hrest : length rest = Nat.min (length partition) (Nat.min (length n_cpus)
                    (Nat.min (length mem) (length time_str)))).
  { subst rest. now rewrite !length_combine. }
  rewrite <- Hrest.
  transitivity (map fst (map snd (combine names (combine deplist rest)))).
  { rewrite map_map. apply map_ext. intros [name [dep [part [n_cpu [m t]]]]]. reflexivity. }
  rewrite map_snd_combine, <- firstn_map, map_fst_combine.
  rewrite <- (firstn_firstn deplist (length names)).
  rewrite <- (firstn_firstn deplist (length deplist)).
  rewrite (firstn_all2 (n := length deplist) (firstn (length rest) deplist)); [reflexivity|].
  rewrite length_firstn. lia.
Qed.

(** The targets of the jobs of the mlcloud branch are the first stale
    targets; all of them when the lists are long enough. *)
Lemma remote_jobs_targets (deplist : list string) (is_ood : list bool)
    (partition : arg (option string)) (n_cpus : arg (option Z))
    (mem time_str : arg (option string)) (name : option (arg string)) :
  let jobs := remote_jobs deplist is_ood partition n_cpus mem time_str name in
  map j_dep jobs = firstn (length jobs) (filter_by deplist is_ood)
  /\ (length is_ood = length deplist ->
      fits partition (length deplist) ->
      fits n_cpus (length deplist) ->
      fits time_str (length deplist) ->
      names_fit name (length deplist) ->
      count_true is_ood <= offered_unfiltered mem (count_true is_ood) ->
      map j_dep jobs = filter_by deplist is_ood).
Proof.
  intros jobs.
  assert (Hprefix : map j_dep jobs = firstn (length jobs) (filter_by deplist is_ood)).
  { subst jobs. unfold remote_jobs, slurm_jobs. apply map_dep_zip6. }
  split; [exact Hprefix|].
  intros Hlen Hpart Hcpus Htime Hname Hmem.
  rewrite Hprefix. apply firstn_all2.
  subst jobs. rewrite (length_remote_jobs _ _ _ _ _ _ _ Hlen). cbv zeta.
  rewrite length_filter_by, <- Hlen, firstn_all.
  assert (Hfit : forall (A : Type) (x : arg A),
             fits x (length deplist) -> offered x is_ood (count_true is_ood) = count_true is_ood).
  { intros A [a|l]; cbn [fits offered]; [reflexivity|].
    intros ->. now rewrite <- Hlen, firstn_all. }
  rewrite !Hfit by assumption.
  assert (Hnames : offered_names name is_ood (count_true is_ood) = count_true is_ood).
  { destruct name as [x|]; cbn [offered_names names_fit] in *; [now apply Hfit | reflexivity]. }
  rewrite Hnames. lia.
Qed.

(** ** More on the local branch *)

Lemma dispatch_local_run (w : World) (deplist : list string)
    (partition : arg (option string)) (tr : trace) :
  let partitions := as_list partition (length deplist) in
  dispatch_local w deplist partition tr
  = (Ok tt,
     tr ++ map (fun dep => Spawn (Command ["redo-ifchange"; dep] None None))
               (deps_where _is_gpu_partition deplist partitions)
        ++ [Spawn (Command
                     ("redo-ifchange"
                      :: deps_where (fun p => negb (_is_gpu_partition p)) deplist partitions)
                     None None)]).
Proof.
  intros partitions. unfold dispatch_local. fold partitions.
  destruct (for_each_redo_ifchange w (deps_where _is_gpu_partition deplist partitions) tr)
    as [statuses Hrun].
  unfold bind at 1. rewrite Hrun.
  unfold bind. rewrite redo_ifchange_run. cbn zeta. unfold ret.
  rewrite <- app_assoc. reflexivity.
Qed.

Lemma built_by_singles (deps : list string) :
  flat_map built_by
    (map (fun dep => Spawn (Command ["redo-ifchange"; dep] None None)) deps) = deps.
Proof. induction deps as [|dep deps IH]; cbn; [reflexivity | now rewrite IH]. Qed.

Lemma filter_split_permutation {A : Type} (f : A -> bool) (l : list A) :
  Permutation (filter f l ++ filter (fun a => negb (f a)) l) l.
Proof.
  induction l as [|a l IH]; cbn [filter]; [constructor|].
  destruct (f a); cbn [negb app].
  - now constructor.
  - apply Permutation_sym, Permutation_cons_app, Permutation_sym. exact IH.
Qed.

(** X12.  On the cin cluster, when the partition is a scalar or a list
    with at least one value per target, every target is handed to the build
    tool exactly once: the targets of all the invocations together are a
    rearrangement of the target list.  With a shorter list, this holds for
    the targets that have a partition; the others are not built. *)
Theorem local_dispatch_builds_each_once (w : World) (fuel : nat) (deplist : list string)
    (partition : arg (option string)) (n_cpus : arg (option Z))
    (mem time_str : arg (option string)) (name : option (arg string)) (tr : trace) :
  getenv w "USER" = Some "nboehm" ->
  exists added,
    snd (redo_ifchange_slurm w fuel deplist partition n_cpus mem time_str name tr)
    = tr ++ added
    /\ Permutation (flat_map built_by added)
         (firstn (length (as_list partition (length deplist))) deplist)
    /\ (length deplist <= length (as_list partition (length deplist)) ->
        Permutation (flat_map built_by added) deplist).
Proof.
  intros Huser. unfold redo_ifchange_slurm. rewrite Huser. cbn [user_is].
  change ("nboehm" =? "nboehm") with true. cbv iota.
  rewrite dispatch_local_run. cbn zeta. cbn [snd].
  set (partitions := as_list partition (length deplist)).
  eexists. split; [reflexivity|].
  assert (Hperm : Permutation
            (flat_map built_by
               (map (fun dep => Spawn (Command ["redo-ifchange"; dep] None None))
                    (deps_where _is_gpu_partition deplist partitions)
                ++ [Spawn (Command
                             ("redo-ifchange"
                              :: deps_where (fun p => negb (_is_gpu_partition p))
                                   deplist partitions) None None)]))
            (firstn (length partitions) deplist)).
  { rewrite flat_map_app, built_by_singles. cbn [flat_map built_by program argv hd tl].
    change ("redo-ifchange" =? "redo-ifchange") with true. cbv iota. rewrite app_nil_r.
    unfold deps_where. rewrite <- map_app, <- map_fst_combine.
    apply Permutation_map.
    apply (filter_split_permutation (fun dp => _is_gpu_partition (snd dp))). }
  split; [exact Hperm|].
  intros Hlen. rewrite (firstn_all2 deplist Hlen) in Hperm. exact Hperm.
Qed.

Lemma local_dispatch_builds_each_once_witness :
  exists added,
    snd (run (redo_ifchange_slurm (cluster "nboehm" both_stale acknowledged 0 0) 0
                ["/work/a.out"; "/work/b.out"; "/work/c.out"]
                (PyList [Some "cpu-short"; Some "gpu-v100"; None])
                (Scalar None) (Scalar None) (Scalar None) None))
    = [] ++ added
    /\ Permutation (flat_map built_by added)
         (firstn 3 ["/work/a.out"; "/work/b.out"; "/work/c.out"])
    /\ (3 <= 3 ->
        Permutation (flat_map built_by added)
          ["/work/a.out"; "/work/b.out"; "/work/c.out"]).
Proof.
  apply (local_dispatch_builds_each_once (cluster "nboehm" both_stale acknowledged 0 0) 0
           ["/work/a.out"; "/work/b.out"; "/work/c.out"]
           (PyList [Some "cpu-short"; Some "gpu-v100"; None])
           (Scalar None) (Scalar None) (Scalar None) None []).
  reflexivity.
Defined.

Lemma deps_where_scalar (keep : option string -> bool) (deplist : list string)
    (p : option string) :
  deps_where keep deplist (replicate p (length deplist))
  = if keep p then deplist else [].
Proof.
  unfold deps_where, replicate.
  induction deplist as [|dep deplist IH]; cbn [length repeat combine filter snd map].
  - now destruct (keep p).
  - destruct (keep p); cbn [map fst]; now rewrite IH.
Qed.

(** X13.  On the cin cluster with one partition for all targets: a GPU
    partition (such as the default [gpu-v100]) gives one invocation of the
    build tool per target, in order, followed by an invocation with no
    target at all; any other partition, or none, gives a single invocation
    with all the targets. *)
Theorem local_dispatch_scalar (w : World) (fuel : nat) (deplist : list string)
    (p : option string) (n_cpus : arg (option Z))
    (mem time_str : arg (option string)) (name : option (arg string)) (tr : trace) :
  getenv w "USER" = Some "nboehm" ->
  snd (redo_ifchange_slurm w fuel deplist (Scalar p) n_cpus mem time_str name tr)
  = tr ++ (if _is_gpu_partition p
           then map (fun dep => Spawn (Command ["redo-ifchange"; dep] None None)) deplist
                ++ [Spawn (Command ["redo-ifchange"] None None)]
           else [Spawn (Command ("redo-ifchange" :: deplist) None None)]).
Proof.
  intros Huser. unfold redo_ifchange_slurm. rewrite Huser. cbn [user_is].
  change ("nboehm" =? "nboehm") with true. cbv iota.
  rewrite dispatch_local_run. cbn zeta. cbn [snd as_list].
  rewrite !deps_where_scalar. destruct (_is_gpu_partition p); reflexivity.
Qed.

Lemma local_dispatch_scalar_witness :
  snd (run (redo_ifchange_slurm (cluster "nboehm" both_stale acknowledged 0 0) 0
              ["/work/a.out"; "/work/b.out"] (Scalar (Some "gpu-v100"))
              (Scalar None) (Scalar None) (Scalar None) None))
  = [ Spawn (Command ["redo-ifchange"; "/work/a.out"] None None);
      Spawn (Command ["redo-ifchange"; "/work/b.out"] None None);
      Spawn (Command ["redo-ifchange"] None None) ].
Proof.
  apply (local_dispatch_scalar (cluster "nboehm" both_stale acknowledged 0 0) 0
           ["/work/a.out"; "/work/b.out"] (Some "gpu-v100")
           (Scalar None) (Scalar None) (Scalar None) None []).
  reflexivity.
Defined.

(** ** Which exception, and when *)



(** ** When nothing is done *)


(** ** The default job names *)

Lemma to_uint_normal (n : nat) : Nat.to_uint n = Decimal.unorm (Nat.to_uint n).
Proof. rewrite <- DecimalNat.Unsigned.to_of, DecimalNat.Unsigned.of_to. reflexivity. Qed.

Lemma to_uint_nonnil (n : nat) : Nat.to_uint n <> Decimal.Nil.
Proof. rewrite to_uint_normal. apply DecimalFacts.unorm_nonnil. Qed.

Lemma string_of_to_uint (n : nat) :
  NilZero.string_of_uint (Nat.to_uint n) = NilEmpty.string_of_uint (Nat.to_uint n).
Proof.
  pose proof (to_uint_nonnil n) as H. destruct (Nat.to_uint n); [contradiction | reflexivity ..].
Qed.

Lemma string_of_to_uint_inj (n n' : nat) :
  NilZero.string_of_uint (Nat.to_uint n) = NilZero.string_of_uint (Nat.to_uint n') -> n = n'.
Proof.
  rewrite !string_of_to_uint. intros H. apply DecimalNat.Unsigned.to_uint_inj.
  apply (f_equal NilEmpty.uint_of_string) in H. rewrite !NilEmpty.usu in H. now injection H.
Qed.

(** The decimal string of a number starts with a zero only when it is "0". *)
Lemma string_of_to_uint_zero (n : nat) (rest : string) :
  NilZero.string_of_uint (Nat.to_uint n) = String "0" rest -> rest = "".
Proof.
  rewrite string_of_to_uint, to_uint_normal. unfold Decimal.unorm.
  pose proof (DecimalFacts.nzhead_nonzero (Nat.to_uint n)) as Hnz.
  destruct (Decimal.nzhead (Nat.to_uint n)) as [|d|d|d|d|d|d|d|d|d|d];
    cbn [NilEmpty.string_of_uint]; intros H; try discriminate H.
  - now injection H.
  - exfalso. now apply (Hnz d).
Qed.

Lemma fmt_02d_inj (i i' : nat) : fmt_02d i = fmt_02d i' -> i = i'.
Proof.
  unfold fmt_02d. cbv zeta.
  remember (NilZero.string_of_uint (Nat.to_uint i)) as s eqn:Es.
  remember (NilZero.string_of_uint (Nat.to_uint i')) as s' eqn:Es'.
  destruct (String.length s <? 2)%nat eqn:Hs, (String.length s' <? 2)%nat eqn:Hs';
    cbn [String.append]; intros H.
  - injection H as H. apply string_of_to_uint_inj. congruence.
  - assert (Hrest : s = "").
    { apply (string_of_to_uint_zero i'). rewrite <- Es'. now symmetry. }
    rewrite Hrest in H. rewrite <- H in Hs'. discriminate Hs'.
  - assert (Hrest : s' = "").
    { apply (string_of_to_uint_zero i). rewrite <- Es. exact H. }
    rewrite Hrest in H. rewrite H in Hs. discriminate Hs.
  - apply string_of_to_uint_inj. congruence.
Qed.

(** X17.  The default job names, [redo00], [redo01], ..., one for each
    position, are pairwise different, also beyond [redo99]. *)
Theorem default_names_distinct (n : nat) :
  length (job_names None n) = n /\ NoDup (job_names None n).
Proof.
  cbn [job_names]. split; [rewrite length_map; apply length_seq|].
  apply Finite.Injective_map_NoDup; [|apply seq_NoDup].
  intros i i' H. apply fmt_02d_inj.
  cbn [String.append] in H. now injection H.
Qed.

(** ** The filter of per-target lists *)

Lemma nth_error_filter_by_kept {A : Type} (l : list A) (bools : list bool) (i : nat) (x : A) :
  nth_error l i = Some x -> nth_error bools i = Some true ->
  nth_error (filter_by l bools) (count_true (firstn i bools)) = Some x.
Proof.
  revert bools i. induction l as [|a l IH]; intros bools i Hl Hb.
  - destruct i; discriminate Hl.
  - destruct bools as [|b bools]; [destruct i; discriminate Hb|].
    rewrite filter_by_cons. destruct i as [|i]; cbn [nth_error firstn] in *.
    + injection Hb as ->. injection Hl as ->. reflexivity.
    + rewrite count_true_cons. specialize (IH bools i Hl Hb).
      destruct b; cbn [Nat.add nth_error]; exact IH.
Qed.

(** X18.  [_redo_filter_list] gives back anything that is not a list as it
    is; of a list it keeps, in order, the elements at the positions where
    the flag is [True]: the [k]-th element kept is the one at the position
    of the [k]-th true flag.  Elements beyond the flags are dropped, so the
    result has as many elements as there are true flags within the length
    of the list. *)
Theorem redo_filter_list_spec {A : Type} (bools : list bool) :
  (forall a : A, _redo_filter_list (Scalar a) bools = Scalar a)
  /\ forall l : list A, exists kept,
       _redo_filter_list (PyList l) bools = PyList kept
       /\ length kept = count_true (firstn (length l) bools)
       /\ forall k x,
            nth_error kept k = Some x <->
            exists i, nth_error l i = Some x
                      /\ nth_error bools i = Some true
                      /\ count_true (firstn i bools) = k.
Proof.
  split; [reflexivity|]. intros l. exists (filter_by l bools).
  split; [reflexivity|]. split; [apply length_filter_by|].
  intros k x. split; [apply nth_error_filter_by|].
  intros [i [Hl [Hb <-]]]. now apply nth_error_filter_by_kept.
Qed.

(** ** The submissions of a remote dispatch *)

Lemma submissions_submit_events (w : World) (jobs : list job) :
  submissions (flat_map (submit_events w) jobs)
  = map (fun j => Spawn (sbatch_command w j)) jobs.
Proof.
  induction jobs as [|j jobs IH]; [reflexivity|].
  cbn [flat_map map]. rewrite submissions_app, IH. reflexivity.
Qed.

Lemma submissions_after_oracle (deplist : list string) (tr : trace) :
  submissions (Spawn (ood_command deplist) :: tr) = submissions tr.
Proof. reflexivity. Qed.

Lemma ood_list_value (w : World) (deplist : list string) (tr : trace) (is_ood : list bool) :
  fst (_redo_ood_list w deplist tr) = Ok is_ood ->
  is_ood = stale_flags (run_proc w tr (ood_command deplist)) deplist.
Proof. rewrite redo_ood_list_run. intros H. now injection H. Qed.

(** On mlcloud, with the targets in the workspace, the submissions of a
    dispatch are those of a prefix of its jobs, in order; of all the jobs
    when [sbatch] acknowledges every one. *)
Lemma remote_submissions (w : World) (fuel : nat) (deplist : list string)
    (partition : arg (option string)) (n_cpus : arg (option Z))
    (mem time_str : arg (option string)) (name : option (arg string))
    (workdir : string) :
  getenv w "USER" = Some "jnboehm91" ->
  getenv w "WORK" = Some workdir ->
  forallb (resolves_under w workdir) deplist = true ->
  let call := run (redo_ifchange_slurm w fuel deplist partition n_cpus mem time_str name) in
  let is_ood := stale_flags (run_proc w [] (ood_command deplist)) deplist in
  let jobs := remote_jobs deplist is_ood partition n_cpus mem time_str name in
  exists m,
    m <= length jobs
    /\ submissions (snd call) = map (fun j => Spawn (sbatch_command w j)) (firstn m jobs)
    /\ ((forall tr c, program c = "sbatch" -> submission_error (run_proc w tr c) = None) ->
        m = length jobs).
Proof.
  intros Huser Hwork Hall call is_ood jobs.
  destruct call as [res tr'] eqn:Hcall. subst call. cbn [fst snd].
  unfold run, redo_ifchange_slurm in Hcall. rewrite Huser in Hcall. cbn [user_is] in Hcall.
  change ("jnboehm91" =? "nboehm") with false in Hcall.
  change ("jnboehm91" =? "jnboehm91") with true in Hcall. cbv iota in Hcall.
  rewrite (dispatch_remote_run w fuel "jnboehm91" deplist partition n_cpus mem
             time_str name workdir [] Hwork Hall) in Hcall.
  fold is_ood in Hcall. fold jobs in Hcall. cbn [app] in Hcall.
  destruct (launch_run w jobs [] [Spawn (ood_command deplist)])
    as [m [Hm [Hsnd [Hok [Hraise Hoof]]]]].
  exists m. split; [exact Hm|].
  assert (Hack : (forall tr c, program c = "sbatch" ->
                    submission_error (run_proc w tr c) = None) -> m = length jobs).
  { intros Hall_ack.
    destruct (launch_acknowledged w Hall_ack jobs [] [Spawn (ood_command deplist)])
      as [ids [added [Hrun _]]].
    apply (Hok ids). now rewrite Hrun. }
  split; [|exact Hack].
  unfold bind in Hcall.
  destruct (launch w jobs [] [Spawn (ood_command deplist)]) as [[ids|e|] tr1];
    cbn [fst snd] in *; subst tr1.
  - set (args := squeue_argv _ _ _) in Hcall.
    destruct (poll_effects w fuel args
                ([Spawn (ood_command deplist)]
                 ++ flat_map (submit_events w) (firstn m jobs)))
      as [added [Hadded [Hnone _]]]; [discriminate|].
    destruct (poll fuel w args _) as [[[]|e|] tr2]; cbn [snd] in Hadded; subst tr2.
    + unfold redo_ifchange, redo, subprocess_call, bind, spawn, ret in Hcall.
      injection Hcall as <- <-. cbn [app].
      rewrite submissions_after_oracle, !submissions_app, Hnone,
        submissions_submit_events, app_nil_r.
      cbn. now rewrite app_nil_r.
    + injection Hcall as <- <-. cbn [app].
      rewrite submissions_after_oracle, submissions_app, Hnone,
        submissions_submit_events. now rewrite app_nil_r.
    + injection Hcall as <- <-. cbn [app].
      rewrite submissions_after_oracle, submissions_app, Hnone,
        submissions_submit_events. now rewrite app_nil_r.
  - injection Hcall as <- <-. cbn [app].
    rewrite submissions_after_oracle. apply submissions_submit_events.
  - contradiction.
Qed.

(** C10.  On mlcloud, with a list of memory values, the [k]-th job that a
    dispatch submits takes the [k]-th value of the memory list as it was
    given: the list is not filtered by the staleness of the targets.  The
    target of that job is the stale target at some position [i] of the
    target list, with [k] the number of stale targets before [i]; its
    partition, CPU count, time limit and name, when given as lists, are the
    values at position [i].  So [k <= i], and [k < i] as soon as a target
    before it was up to date: the memory value is then the one of an
    earlier position.  When [sbatch] acknowledges every job, the number of
    submissions is bounded by the length of the memory list as given and by
    the stale positions of the other lists. *)
Theorem memory_list_is_not_filtered (w : World) (fuel : nat) (deplist : list string)
    (partition : arg (option string)) (n_cpus : arg (option Z))
    (ms : list (option string)) (time_str : arg (option string))
    (name : option (arg string)) (workdir : string) (is_ood : list bool) :
  getenv w "USER" = Some "jnboehm91" ->
  getenv w "WORK" = Some workdir ->
  forallb (resolves_under w workdir) deplist = true ->
  fst (_redo_ood_list w deplist []) = Ok is_ood ->
  let call := run (redo_ifchange_slurm w fuel deplist partition n_cpus (PyList ms)
                     time_str name) in
  let n := count_true is_ood in
  (forall k c, nth_error (submissions (snd call)) k = Some (Spawn c) ->
     exists j i,
       c = sbatch_command w j
       /\ nth_error ms k = Some (j_mem j)
       /\ nth_error deplist i = Some (j_dep j)
       /\ nth_error is_ood i = Some true
       /\ count_true (firstn i is_ood) = k
       /\ k <= i
       /\ (k < i <-> exists i', i' < i /\ nth_error is_ood i' = Some false)
       /\ (forall ps, partition = PyList ps -> nth_error ps i = Some (j_part j))
       /\ (forall cs, n_cpus = PyList cs -> nth_error cs i = Some (j_cpus j))
       /\ (forall ts, time_str = PyList ts -> nth_error ts i = Some (j_time j))
       /\ (forall ns, name = Some (PyList ns) -> nth_error ns i = Some (j_name j)))
  /\ ((forall tr c, program c = "sbatch" -> submission_error (run_proc w tr c) = None) ->
      length (submissions (snd call))
      = Nat.min (offered_names name is_ood n) (Nat.min n
          (Nat.min (offered partition is_ood n) (Nat.min (offered n_cpus is_ood n)
             (Nat.min (length ms) (offered time_str is_ood n)))))).
Proof.
  intros Huser Hwork Hall Hood call n.
  apply ood_list_value in Hood.
  destruct (remote_submissions w fuel deplist partition n_cpus (PyList ms) time_str name
              workdir Huser Hwork Hall) as [m [Hm [Hsub Hack]]].
  fold call in Hsub. rewrite <- Hood in Hsub, Hm, Hack.
  split.
  - intros k c Hk. rewrite Hsub, nth_error_map in Hk.
    destruct (nth_error (firstn m _) k) as [j|] eqn:Hj; [|discriminate Hk].
    cbn [option_map] in Hk. injection Hk as <-.
    rewrite nth_error_firstn in Hj. destruct (k <? m)%nat; [|discriminate Hj].
    destruct (remote_job_pairing deplist is_ood partition n_cpus ms time_str name k j Hj)
      as [Hmem [i Hi]].
    exists j, i. split; [reflexivity|]. split; [exact Hmem | exact Hi].
  - intros Hall_ack. rewrite Hsub, length_map, (Hack Hall_ack), firstn_all.
    apply (length_remote_jobs deplist is_ood partition n_cpus (PyList ms) time_str name).
    rewrite Hood. apply length_stale_flags.
Qed.

Lemma memory_list_is_not_filtered_witness :
  exists j i,
    sbatch_command
      (cluster "jnboehm91" (Completed 0 ("/work/b.out" ++ nl ++ "/work/c.out" ++ nl) "")
         acknowledged 0 0)
      (Job "redo00" "/work/b.out" (Some "cpu-b") None (Some "1G") None)
    = sbatch_command
        (cluster "jnboehm91" (Completed 0 ("/work/b.out" ++ nl ++ "/work/c.out" ++ nl) "")
           acknowledged 0 0) j
    /\ nth_error [Some "1G"; Some "2G"; Some "3G"] 0 = Some (j_mem j)
    /\ nth_error ["/work/a.out"; "/work/b.out"; "/work/c.out"] i = Some (j_dep j)
    /\ nth_error [false; true; true] i = Some true
    /\ count_true (firstn i [false; true; true]) = 0
    /\ 0 <= i
    /\ (0 < i <-> exists i', i' < i /\ nth_error [false; true; true] i' = Some false)
    /\ (forall ps, PyList [Some "cpu-a"; Some "cpu-b"; Some "cpu-c"] = PyList ps ->
          nth_error ps i = Some (j_part j))
    /\ (forall cs, @Scalar (option Z) None = PyList cs -> nth_error cs i = Some (j_cpus j))
    /\ (forall ts, @Scalar (option string) None = PyList ts ->
          nth_error ts i = Some (j_time j))
    /\ (forall ns, @None (arg string) = Some (PyList ns) ->
          nth_error ns i = Some (j_name j)).
Proof.
  apply (proj1 (memory_list_is_not_filtered
                  (cluster "jnboehm91"
                     (Completed 0 ("/work/b.out" ++ nl ++ "/work/c.out" ++ nl) "")
                     acknowledged 0 0) 1
                  ["/work/a.out"; "/work/b.out"; "/work/c.out"]
                  (PyList [Some "cpu-a"; Some "cpu-b"; Some "cpu-c"]) (Scalar None)
                  [Some "1G"; Some "2G"; Some "3G"] (Scalar None) None "/work"
                  [false; true; true] eq_refl eq_refl eq_refl eq_refl) 0).
  reflexivity.
Defined.

Lemma count_true_repeat (n : nat) : count_true (repeat true n) = n.
Proof.
  induction n as [|n IH]; [reflexivity|].
  cbn [repeat]. rewrite count_true_cons, IH. reflexivity.
Qed.

(** X10.  On mlcloud, when the oracle exits with a status other than 0,
    every list-valued field has one value per target, and [sbatch]
    acknowledges every job, a dispatch submits exactly one job for every
    target, in the order of the target list, each with the values of its
    own position: the submissions are those of the arguments as they were
    given, and their targets are the target list. *)
Theorem oracle_failure_submits_everything (w : World) (fuel : nat) (deplist : list string)
    (partition : arg (option string)) (n_cpus : arg (option Z))
    (mem time_str : arg (option string)) (name : option (arg string))
    (workdir : string) :
  getenv w "USER" = Some "jnboehm91" ->
  getenv w "WORK" = Some workdir ->
  forallb (resolves_under w workdir) deplist = true ->
  returncode (run_proc w [] (ood_command deplist)) <> 0%Z ->
  fits partition (length deplist) ->
  fits n_cpus (length deplist) ->
  fits mem (length deplist) ->
  fits time_str (length deplist) ->
  names_fit name (length deplist) ->
  (forall tr c, program c = "sbatch" -> submission_error (run_proc w tr c) = None) ->
  let call := run (redo_ifchange_slurm w fuel deplist partition n_cpus mem time_str name) in
  submissions (snd call)
  = map (fun j => Spawn (sbatch_command w j))
        (slurm_jobs deplist partition n_cpus mem time_str name)
  /\ map script_of (submissions (snd call))
     = map (fun dep => Some (job_script dep)) deplist.
Proof.
  intros Huser Hwork Hall Hrc Hpart Hcpus Hmem Htime Hname Hack call.
  destruct (remote_submissions w fuel deplist partition n_cpus mem time_str name
              workdir Huser Hwork Hall) as [m [_ [Hsub Hm]]].
  fold call in Hsub. rewrite (Hm Hack), firstn_all in Hsub.
  set (is_ood := stale_flags (run_proc w [] (ood_command deplist)) deplist) in *.
  assert (Hjobs : remote_jobs deplist is_ood partition n_cpus mem time_str name
                  = slurm_jobs deplist partition n_cpus mem time_str name)
    by now apply remote_jobs_unfiltered.
  assert (Htrue : is_ood = repeat true (length deplist)).
  { subst is_ood. unfold stale_flags. apply Z.eqb_neq in Hrc. rewrite Hrc.
    apply map_const_repeat. }
  assert (Hdeps : map j_dep (remote_jobs deplist is_ood partition n_cpus mem time_str name)
                  = filter_by deplist is_ood).
  { apply remote_jobs_targets; try assumption.
    - rewrite Htrue. apply repeat_length.
    - rewrite Htrue, count_true_repeat.
      destruct mem as [a|l]; cbn [offered_unfiltered fits] in *; lia. }
  rewrite Htrue, (filter_by_everything deplist _ eq_refl), <- Htrue in Hdeps.
  rewrite Hjobs in Hsub, Hdeps. split; [exact Hsub|].
  rewrite Hsub, map_map. cbn [script_of sbatch_command input].
  rewrite <- Hdeps at 2. rewrite map_map. reflexivity.
Qed.

Lemma oracle_failure_submits_everything_witness :
  submissions (snd (run (redo_ifchange_slurm
     (cluster "jnboehm91" (Completed 2 "" "no database") acknowledged 0 0) 1
     ["/work/a.out"; "/work/b.out"]
     (PyList [Some "gpu-v100"; Some "cpu-short"]) (Scalar (Some 2%Z))
     (PyList [Some "1G"; Some "2G"]) (Scalar None) None)))
  = map (fun j => Spawn (sbatch_command
                           (cluster "jnboehm91" (Completed 2 "" "no database")
                              acknowledged 0 0) j))
        (slurm_jobs ["/work/a.out"; "/work/b.out"]
           (PyList [Some "gpu-v100"; Some "cpu-short"]) (Scalar (Some 2%Z))
           (PyList [Some "1G"; Some "2G"]) (Scalar None) None)
  /\ map script_of
       (submissions (snd (run (redo_ifchange_slurm
          (cluster "jnboehm91" (Completed 2 "" "no database") acknowledged 0 0) 1
          ["/work/a.out"; "/work/b.out"]
          (PyList [Some "gpu-v100"; Some "cpu-short"]) (Scalar (Some 2%Z))
          (PyList [Some "1G"; Some "2G"]) (Scalar None) None))))
     = map (fun dep => Some (job_script dep)) ["/work/a.out"; "/work/b.out"].
Proof.
  apply (oracle_failure_submits_everything
           (cluster "jnboehm91" (Completed 2 "" "no database") acknowledged 0 0) 1
           ["/work/a.out"; "/work/b.out"]
           (PyList [Some "gpu-v100"; Some "cpu-short"]) (Scalar (Some 2%Z))
           (PyList [Some "1G"; Some "2G"]) (Scalar None) None "/work").
  - reflexivity.
  - reflexivity.
  - reflexivity.
  - discriminate.
  - reflexivity.
  - exact I.
  - reflexivity.
  - exact I.
  - exact I.
  - apply cluster_acknowledges.
Defined.

(** X11.  On mlcloud, the jobs a dispatch submits are for targets the
    oracle reported stale, in the order of the target list and without
    gaps: the scripts of the submissions are those of the first stale
    targets.  When the partition, CPU, time and name lists have one value
    per target, a memory list has at least one value per stale target, and
    [sbatch] acknowledges every job, there is exactly one submission for
    each stale target and none for a target that is up to date. *)
Theorem jobs_are_for_stale_targets (w : World) (fuel : nat) (deplist : list string)
    (partition : arg (option string)) (n_cpus : arg (option Z))
    (mem time_str : arg (option string)) (name : option (arg string))
    (workdir : string) (is_ood : list bool) :
  getenv w "USER" = Some "jnboehm91" ->
  getenv w "WORK" = Some workdir ->
  forallb (resolves_under w workdir) deplist = true ->
  fst (_redo_ood_list w deplist []) = Ok is_ood ->
  let call := run (redo_ifchange_slurm w fuel deplist partition n_cpus mem time_str name) in
  (exists m,
     map script_of (submissions (snd call))
     = map (fun dep => Some (job_script dep)) (firstn m (filter_by deplist is_ood)))
  /\ (fits partition (length deplist) ->
      fits n_cpus (length deplist) ->
      fits time_str (length deplist) ->
      names_fit name (length deplist) ->
      count_true is_ood <= offered_unfiltered mem (count_true is_ood) ->
      (forall tr c, program c = "sbatch" -> submission_error (run_proc w tr c) = None) ->
      map script_of (submissions (snd call))
      = map (fun dep => Some (job_script dep)) (filter_by deplist is_ood)).
Proof.
  intros Huser Hwork Hall Hood call.
  pose proof (ood_list_value w deplist [] is_ood Hood) as Hflags.
  destruct (remote_submissions w fuel deplist partition n_cpus mem time_str name
              workdir Huser Hwork Hall) as [m [Hm [Hsub Hack]]].
  fold call in Hsub. rewrite <- Hflags in Hsub, Hm, Hack.
  set (jobs := remote_jobs deplist is_ood partition n_cpus mem time_str name) in *.
  destruct (remote_jobs_targets deplist is_ood partition n_cpus mem time_str name)
    as [Hprefix Hfull]. fold jobs in Hprefix, Hfull.
  assert (Hscripts : map script_of (submissions (snd call))
                     = map (fun dep => Some (job_script dep)) (firstn m (map j_dep jobs))).
  { rewrite Hsub, map_map, firstn_map, map_map. reflexivity. }
  split.
  - exists m. rewrite Hscripts, Hprefix, firstn_firstn.
    now rewrite (Nat.min_l m (length jobs) Hm).
  - intros Hpart Hcpus Htime Hname Hmem Hall_ack.
    rewrite Hscripts, (Hack Hall_ack), <- (length_map j_dep jobs), firstn_all.
    rewrite Hfull; [reflexivity| |assumption ..].
    rewrite Hflags. apply length_stale_flags.
Qed.

Lemma jobs_are_for_stale_targets_witness :
  map script_of
    (submissions (snd (run (redo_ifchange_slurm
       (cluster "jnboehm91" (Completed 0 ("/work/a.out" ++ nl ++ "/work/c.out" ++ nl) "")
          acknowledged 0 0) 1
       ["/work/a.out"; "/work/b.out"; "/work/c.out"]
       (PyList [Some "gpu-v100"; Some "cpu-short"; None]) (Scalar None)
       (Scalar (Some "4G")) (Scalar None) None))))
  = map (fun dep => Some (job_script dep))
        (filter_by ["/work/a.out"; "/work/b.out"; "/work/c.out"] [true; false; true]).
Proof.
  apply (proj2 (jobs_are_for_stale_targets
                  (cluster "jnboehm91"
                     (Completed 0 ("/work/a.out" ++ nl ++ "/work/c.out" ++ nl) "")
                     acknowledged 0 0) 1
                  ["/work/a.out"; "/work/b.out"; "/work/c.out"]
                  (PyList [Some "gpu-v100"; Some "cpu-short"; None]) (Scalar None)
                  (Scalar (Some "4G")) (Scalar None) None "/work" [true; false; true]
                  eq_refl eq_refl eq_refl eq_refl)).
  - reflexivity.
  - exact I.
  - exact I.
  - exact I.
  - simpl. lia.
  - apply cluster_acknowledges.
Defined.

(** ** What an exception reports *)

Section Blame.

Variable w : World.










End Blame.


